(** * qbo-mcp: navigation state machine, tool router and QuickBooks client

    A shallow embedding of [src/index.ts], [src/utils/client.ts] and the
    invoices domain handler, with the properties of the specification
    stated against it.

    JavaScript values are an inductive type; a number that arrives in JSON
    is kept as the text JavaScript prints for it, and the integers the code
    computes with (a page size, a start position, an HTTP status) are in
    [Z].  Code that touches
    the module-level singleton, [process.env] or the network runs in a small
    state-and-exception monad over an explicit environment. *)

From Stdlib Require Import String Ascii List ZArith Bool Lia DecimalString.
From ExtLib Require Import Structures.Monad.
Import ListNotations.
Import MonadNotation.
Local Open Scope string_scope.
Local Open Scope Z_scope.
Local Open Scope monad_scope.
Set Warnings "-register-all".


(** ** JavaScript values *)

Module Js.

(** What a parsed JSON body, a tool argument or a module variable can hold.
    A number is kept as the text JavaScript prints for it ("7", "0.5",
    "1e+21"; negative zero prints "0"): the code never computes with a
    number it was given, it only tests and prints it.  [VObj] lists the own
    enumerable properties in the order [Object.values] walks them; keys are
    distinct. *)
Inductive value : Type :=
| VUndefined
| VNull
| VBool (b : bool)
| VNum (printed : string)
| VStr (s : string)
| VArr (items : list value)
| VObj (fields : list (string * value)).

(** [if (v)], [!v], [a && b]: the falsy values are [undefined], [null],
    [false], zero, [NaN] and the empty string. *)
Definition truthy (v : value) : bool :=
  match v with
  | VUndefined | VNull => false
  | VBool b => b
  | VNum printed => negb ((printed =? "0") || (printed =? "NaN"))%string
  | VStr s => negb (s =? "")%string
  | VArr _ | VObj _ => true
  end.

(** Decimal rendering of an integer the code itself computes with (a start
    position, a page size, an HTTP status, an array length), as a template
    literal prints it; exact for magnitudes below 2^53, where every integer
    is a JavaScript number and prints with all its digits. *)
Definition show_Z (n : Z) : string := NilZero.string_of_int (Z.to_int n).

(** An own property named [k]. *)
Definition has_key (fields : list (string * value)) (k : string) : bool :=
  existsb (fun kv => (fst kv =? k)%string) fields.

(** [`${v}`] and [String(v)]: the string conversion, [None] when it throws
    its TypeError.  A plain object prints through [Object.prototype], unless
    it has an own [toString] property: that one is never callable in a value
    that came from JSON, and the conversion then throws.  An array joins the
    conversions of its elements, [null] and [undefined] giving the empty
    string. *)
Fixpoint to_string (v : value) : option string :=
  match v with
  | VUndefined => Some "undefined"
  | VNull => Some "null"
  | VBool true => Some "true"
  | VBool false => Some "false"
  | VNum printed => Some printed
  | VStr s => Some s
  | VArr items =>
      option_map (String.concat ",")
        ((fix join (l : list value) : option (list string) :=
            match l with
            | [] => Some []
            | x :: rest =>
                match match x with
                      | VUndefined | VNull => Some ""
                      | _ => to_string x
                      end, join rest with
                | Some s, Some ss => Some (s :: ss)
                | _, _ => None
                end
            end) items)
  | VObj fields =>
      if has_key fields "toString" then None else Some "[object Object]"
  end.

(** [o.k] on an object literal or parsed record: [undefined] when absent. *)
Fixpoint lookup (fields : list (string * value)) (k : string) : value :=
  match fields with
  | [] => VUndefined
  | (k', v) :: rest => if (k' =? k)%string then v else lookup rest k
  end.

(** [x = d] in a destructuring pattern: the default applies to [undefined]
    only. *)
Definition or_default (d v : value) : value :=
  match v with
  | VUndefined => d
  | _ => v
  end.

Definition is_array (v : value) : bool :=
  match v with
  | VArr _ => true
  | _ => false
  end.

(** A string seen as an array-like: its characters. *)
Fixpoint chars (s : string) : list value :=
  match s with
  | EmptyString => []
  | String c rest => VStr (String c EmptyString) :: chars rest
  end.

(** [Object.values(v)] for a value that is neither [null] nor [undefined]. *)
Definition object_values (v : value) : list value :=
  match v with
  | VObj fields => map snd fields
  | VArr items => items
  | VStr s => chars s
  | _ => []
  end.

(** The value of a decimal numeral, [None] when a character is no digit. *)
Fixpoint numeral (s : string) (acc : N) : option N :=
  match s with
  | EmptyString => Some acc
  | String c rest =>
      let d := N_of_ascii c in
      if ((48 <=? d) && (d <=? 57))%N
      then numeral rest (acc * 10 + (d - 48))%N
      else None
  end.

(** A property name that is an array index: the canonical numeral of an
    integer from 0 to 2^32 - 2.  An object lists such names first, in
    ascending order, whenever they were added. *)
Definition array_index (k : string) : option N :=
  match k with
  | EmptyString => None
  | String c rest =>
      if ((c =? "0")%char && negb (rest =? "")%string) then None
      else match numeral k 0 with
           | Some n => if (n <? 4294967295)%N then Some n else None
           | None => None
           end
  end.

End Js.
Import Js.

(** ** Exceptions and the effect monad *)

(** A thrown JavaScript error; only its message is ever read. *)
Inductive exn : Type :=
| Error (message : string)
| TypeError (message : string)
| SyntaxError (message : string).

Definition message_of (e : exn) : string :=
  match e with
  | Error m | TypeError m | SyntaxError m => m
  end.

Inductive outcome (A : Type) : Type :=
| Return (a : A)
| Throw (e : exn).
Arguments Return {A} a.
Arguments Throw {A} e.

(** A computation over a store [S] that may throw; a throw keeps the store
    as it was at that point, as a JavaScript exception keeps the heap. *)
Definition eff (S A : Type) : Type := S -> outcome A * S.

#[export] Instance Monad_eff {S : Type} : Monad (eff S) :=
  {| ret := fun _ a s => (Return a, s);
     bind := fun _ _ c k s =>
       match c s with
       | (Return a, s') => k a s'
       | (Throw e, s') => (Throw e, s')
       end |}.

Definition throw {S A : Type} (e : exn) : eff S A := fun s => (Throw e, s).

(** ** The QuickBooks REST client ([src/utils/client.ts]) *)

Definition QBO_API_BASE : string := "https://quickbooks.api.intuit.com/v3/company".
Definition MINOR_VERSION : string := "73".
Definition MAX_PAGE_SIZE : Z := 1000.

Record QboClientConfig : Type := {
  accessToken : string;
  realmId : string
}.

(** What [fetch(url, options)] is called with.  The query string is kept as
    the list of pairs given to [URLSearchParams]; [rq_body] is the value
    handed to [JSON.stringify], [None] when [options.body] is not set. *)
Record HttpRequest : Type := {
  rq_method : string;
  rq_url : string;
  rq_search : list (string * string);
  rq_headers : list (string * string);
  rq_body : option value
}.

(** What the upstream answered: [rs_text] is [response.text()], [rs_json]
    is what [response.json()] resolves to, [None] when the body does not
    parse. *)
Record HttpResponse : Type := {
  rs_status : Z;
  rs_text : string;
  rs_json : option value
}.

(** [fetch] either rejects (connection refused, timeout) or resolves to a
    response. *)
Inductive FetchResult : Type :=
| Rejected (e : exn)
| Responded (r : HttpResponse).

(** [response.ok]: the status is in the range 200-299. *)
Definition rs_ok (r : HttpResponse) : bool :=
  (200 <=? rs_status r) && (rs_status r <=? 299).

(** Where a property with a new name goes in an object: an array index
    goes among the array indices, in ascending order and before every other
    name; any other name goes last. *)
Fixpoint insert_index (o : list (string * string)) (n : N) (k v : string)
  : list (string * string) :=
  match o with
  | [] => [(k, v)]
  | (k', v') :: rest =>
      match array_index k' with
      | Some n' =>
          if (n <? n')%N then (k, v) :: o
          else (k', v') :: insert_index rest n k v
      | None => (k, v) :: o
      end
  end.

(** The property keeps its place and takes the new value. *)
Fixpoint overwrite (o : list (string * string)) (k v : string)
  : list (string * string) :=
  match o with
  | [] => []
  | (k', v') :: rest =>
      if (k' =? k)%string then (k', v) :: rest else (k', v') :: overwrite rest k v
  end.

(** [o[k] = v] on the property list of an object. *)
Definition assign (o : list (string * string)) (k v : string)
  : list (string * string) :=
  if existsb (fun kv => (fst kv =? k)%string) o then overwrite o k v
  else match array_index k with
       | Some n => insert_index o n k v
       | None => (o ++ [(k, v)])%list
       end.

(** [{ ...o, ...extra }]: the properties of [extra] assigned one after the
    other. *)
Definition spread (o extra : list (string * string)) : list (string * string) :=
  fold_left (fun acc kv => assign acc (fst kv) (snd kv)) extra o.

(** [this.baseUrl], set by the constructor. *)
Definition baseUrl (config : QboClientConfig) : string :=
  QBO_API_BASE ++ "/" ++ realmId config.

Definition auth_headers (config : QboClientConfig) : list (string * string) :=
  [ ("Authorization", "Bearer " ++ accessToken config);
    ("Content-Type", "application/json");
    ("Accept", "application/json") ].

(** The request [QboClient.request] builds before it calls [fetch]. *)
Definition build_request (config : QboClientConfig) (method path : string)
    (params : option (list (string * string))) (body : value) : HttpRequest :=
  {| rq_method := method;
     rq_url := baseUrl config ++ "/" ++ path;
     rq_search :=
       spread [("minorversion", MINOR_VERSION)]
              (match params with Some p => p | None => [] end);
     rq_headers := auth_headers config;
     rq_body := match body with VUndefined => None | _ => Some body end |}.

Definition api_error (method path : string) (r : HttpResponse) : exn :=
  Error ("QBO API error " ++ method ++ " /" ++ path ++ " ("
         ++ show_Z (rs_status r) ++ "): " ++ rs_text r).

(** [obj.key] where [obj] may be any value: reading a property of [null] or
    [undefined] throws, every other non-object has no such property. *)
Definition get_prop (obj : value) (key : string) : outcome value :=
  match obj with
  | VUndefined =>
      Throw (TypeError ("Cannot read properties of undefined (reading '"
                        ++ key ++ "')"))
  | VNull =>
      Throw (TypeError ("Cannot read properties of null (reading '"
                        ++ key ++ "')"))
  | VObj fields => Return (lookup fields key)
  | _ => Return VUndefined
  end.

Section Server.

(** The upstream service: a state and the answer it gives to one request. *)
Variable U : Type.
Variable fetch : U -> HttpRequest -> FetchResult * U.

(** The process-wide store the client code reads and writes: the singleton
    [_client] (a client is its immutable config), the two variables of
    [process.env], the upstream, the requests sent so far and the date
    [new Date().toISOString().split("T")[0]] reads. *)
Record Env : Type := {
  _client : option QboClientConfig;
  QBO_ACCESS_TOKEN : option string;
  QBO_REALM_ID : option string;
  upstream : U;
  sent : list HttpRequest;
  today : string
}.

Definition do_fetch (rq : HttpRequest) : eff Env HttpResponse :=
  fun w =>
    let (res, u') := fetch (upstream w) rq in
    let w' := {| _client := _client w;
                 QBO_ACCESS_TOKEN := QBO_ACCESS_TOKEN w;
                 QBO_REALM_ID := QBO_REALM_ID w;
                 upstream := u';
                 sent := (sent w ++ [rq])%list;
                 today := today w |} in
    match res with
    | Rejected e => (Throw e, w')
    | Responded r => (Return r, w')
    end.

(** [QboClient.request] *)
Definition request (config : QboClientConfig) (method path : string)
    (params : option (list (string * string))) (body : value)
  : eff Env value :=
  response <- do_fetch (build_request config method path params body) ;;
  if negb (rs_ok response) then throw (api_error method path response)
  else if rs_status response =? 204 then ret VNull
  else match rs_json response with
       | Some v => ret v
       | None => throw (SyntaxError "Unexpected token in JSON")
       end.

(** [QboClient.get] *)
Definition get (config : QboClientConfig) (path : string)
    (params : option (list (string * string))) : eff Env value :=
  request config "GET" path params VUndefined.

(** [QboClient.post] *)
Definition post (config : QboClientConfig) (path : string) (body : value)
    (params : option (list (string * string))) : eff Env value :=
  request config "POST" path params body.

(** [QboClient.query] *)
Definition query (config : QboClientConfig) (sql : string) : eff Env value :=
  request config "POST" "query" None (VStr sql).

(** The text of one page's query. *)
Definition paginatedSql (baseSql : string) (startPosition maxResults : Z)
  : string :=
  baseSql ++ " STARTPOSITION " ++ show_Z startPosition
          ++ " MAXRESULTS " ++ show_Z maxResults.

(** The [while (hasMore)] loop of [QboClient.getPaginated], one round per
    unit of fuel; [None] when the loop is still running after [fuel]
    rounds. *)
Fixpoint getPaginated_loop (fuel : nat) (config : QboClientConfig)
    (baseSql : string) (maxResults startPosition : Z) (allItems : list value)
    (w : Env) : option (outcome (list value)) * Env :=
  match fuel with
  | O => (None, w)
  | S fuel' =>
      match query config (paginatedSql baseSql startPosition maxResults) w with
      | (Throw e, w') => (Some (Throw e), w')
      | (Return response, w') =>
          match get_prop response "QueryResponse" with
          | Throw e => (Some (Throw e), w')
          | Return qr =>
              if truthy qr then
                match find is_array (object_values qr) with
                | Some (VArr entities) =>
                    if (0 <? length entities)%nat then
                      if Z.of_nat (length entities) <? maxResults
                      then (Some (Return (allItems ++ entities)%list), w')
                      else getPaginated_loop fuel' config baseSql maxResults
                             (startPosition + maxResults)
                             (allItems ++ entities)%list w'
                    else (Some (Return allItems), w')
                | _ => (Some (Return allItems), w')
                end
              else (Some (Return allItems), w')
          end
      end
  end.

(** [QboClient.getPaginated]; [maxResults] is [None] when the caller leaves
    the parameter out.  The page size and the start positions are integers
    of magnitude below 2^53. *)
Definition getPaginated (fuel : nat) (config : QboClientConfig)
    (baseSql : string) (maxResults : option Z) (w : Env)
  : option (outcome (list value)) * Env :=
  getPaginated_loop fuel config baseSql
    (match maxResults with Some m => m | None => MAX_PAGE_SIZE end) 1 [] w.

(** [!s] for an environment variable or a header: unset or empty. *)
Definition missing (s : option string) : bool :=
  match s with
  | None => true
  | Some v => (v =? "")%string
  end.

Definition credentials_required : exn :=
  Error ("QBO_ACCESS_TOKEN and QBO_REALM_ID environment variables are required. "
         ++ "Provide a pre-authenticated OAuth2 access token and company realm ID.").

(** [getClient] *)
Definition getClient : eff Env QboClientConfig :=
  fun w =>
    match _client w with
    | Some c => (Return c, w)
    | None =>
        if missing (QBO_ACCESS_TOKEN w) || missing (QBO_REALM_ID w)
        then (Throw credentials_required, w)
        else
          match QBO_ACCESS_TOKEN w, QBO_REALM_ID w with
          | Some tok, Some realm =>
              let c := {| accessToken := tok; realmId := realm |} in
              (Return c,
               {| _client := Some c;
                  QBO_ACCESS_TOKEN := QBO_ACCESS_TOKEN w;
                  QBO_REALM_ID := QBO_REALM_ID w;
                  upstream := upstream w;
                  sent := sent w;
                  today := today w |})
          | _, _ => (Throw credentials_required, w)
          end
    end.

(** [resetClient] *)
Definition resetClient (w : Env) : Env :=
  {| _client := None;
     QBO_ACCESS_TOKEN := QBO_ACCESS_TOKEN w;
     QBO_REALM_ID := QBO_REALM_ID w;
     upstream := upstream w;
     sent := sent w;
     today := today w |}.

(** ** Tool descriptors *)

(** A tool descriptor: its name, the property names of its input schema and
    the schema's [required] list (descriptions are left out). *)
Record Tool : Type := {
  name : string;
  properties : list string;
  required : list string
}.

(** What a tool call answers.  [text] is either a literal message or the
    [JSON.stringify(v, null, 2)] of an upstream result; [isError] is [false]
    when the field is left out. *)
Inductive TextContent : Type :=
| Plain (s : string)
| Stringified (v : value).

Record ToolResult : Type := {
  text : TextContent;
  isError : bool
}.

Definition customerTools : list Tool :=
  [ {| name := "qbo_customers_list";
       properties := ["startPosition"; "maxResults"];
       required := [] |};
    {| name := "qbo_customers_get";
       properties := ["customerId"];
       required := ["customerId"] |};
    {| name := "qbo_customers_create";
       properties := ["DisplayName"; "GivenName"; "FamilyName"; "CompanyName";
                      "PrimaryEmailAddr"; "PrimaryPhone"; "BillAddr"];
       required := ["DisplayName"] |};
    {| name := "qbo_customers_search";
       properties := ["term"; "startPosition"; "maxResults"];
       required := ["term"] |} ].

Definition invoiceTools : list Tool :=
  [ {| name := "qbo_invoices_list";
       properties := ["startPosition"; "maxResults"; "status"; "startDate";
                      "endDate"];
       required := [] |};
    {| name := "qbo_invoices_get";
       properties := ["invoiceId"];
       required := ["invoiceId"] |};
    {| name := "qbo_invoices_create";
       properties := ["CustomerRef"; "Line"; "DueDate"; "TxnDate"; "BillEmail";
                      "PrivateNote"; "CustomerMemo"];
       required := ["CustomerRef"; "Line"] |};
    {| name := "qbo_invoices_send";
       properties := ["invoiceId"; "email"];
       required := ["invoiceId"] |} ].

Definition expenseTools : list Tool :=
  [ {| name := "qbo_expenses_list_purchases";
       properties := ["startPosition"; "maxResults"; "startDate"; "endDate"];
       required := [] |};
    {| name := "qbo_expenses_list_bills";
       properties := ["startPosition"; "maxResults"; "startDate"; "endDate"];
       required := [] |};
    {| name := "qbo_expenses_get_purchase";
       properties := ["purchaseId"];
       required := ["purchaseId"] |};
    {| name := "qbo_expenses_get_bill";
       properties := ["billId"];
       required := ["billId"] |} ].

Definition paymentTools : list Tool :=
  [ {| name := "qbo_payments_list";
       properties := ["startPosition"; "maxResults"; "startDate"; "endDate"];
       required := [] |};
    {| name := "qbo_payments_get";
       properties := ["paymentId"];
       required := ["paymentId"] |};
    {| name := "qbo_payments_create";
       properties := ["CustomerRef"; "TotalAmt"; "Line"; "TxnDate";
                      "PaymentMethodRef"; "DepositToAccountRef"; "PrivateNote"];
       required := ["CustomerRef"; "TotalAmt"] |} ].

Definition reportTools : list Tool :=
  [ {| name := "qbo_reports_profit_and_loss";
       properties := ["start_date"; "end_date"; "accounting_method"];
       required := ["start_date"; "end_date"] |};
    {| name := "qbo_reports_balance_sheet";
       properties := ["start_date"; "end_date"; "accounting_method"];
       required := ["start_date"; "end_date"] |};
    {| name := "qbo_reports_aged_receivables";
       properties := ["report_date"];
       required := [] |};
    {| name := "qbo_reports_aged_payables";
       properties := ["report_date"];
       required := [] |};
    {| name := "qbo_reports_customer_sales";
       properties := ["start_date"; "end_date"];
       required := ["start_date"; "end_date"] |} ].

Definition navigateTool : Tool :=
  {| name := "qbo_navigate"; properties := ["domain"]; required := ["domain"] |}.

Definition backTool : Tool :=
  {| name := "qbo_back"; properties := []; required := [] |}.

(** The type [Domain] of [index.ts] and the string each member is. *)
Inductive Domain : Type := customers | invoices | expenses | payments | reports.

Definition domain_name (d : Domain) : string :=
  match d with
  | customers => "customers"
  | invoices => "invoices"
  | expenses => "expenses"
  | payments => "payments"
  | reports => "reports"
  end.

Definition all_domains : list Domain :=
  [customers; invoices; expenses; payments; reports].

(** [v === s] for a string literal [s]. *)
Definition is_str (v : value) (s : string) : bool :=
  match v with
  | VStr x => (x =? s)%string
  | _ => false
  end.

(** [getDomainTools]: the [switch] has no default, so any other value falls
    out of the function and the call yields [undefined], here [None]. *)
Definition getDomainTools (domain : value) : option (list Tool) :=
  if is_str domain "customers" then Some customerTools
  else if is_str domain "invoices" then Some invoiceTools
  else if is_str domain "expenses" then Some expenseTools
  else if is_str domain "payments" then Some paymentTools
  else if is_str domain "reports" then Some reportTools
  else None.

(** ** The invoices domain handler *)

Definition ok_result (response : value) : ToolResult :=
  {| text := Stringified response; isError := false |}.

Definition error_result (msg : string) : ToolResult :=
  {| text := Plain msg; isError := true |}.

(** [new Date().toISOString().split("T")[0]] *)
Definition read_today : eff Env string := fun w => (Return (today w), w).

(** The error a string conversion throws. *)
Definition conversion_error : exn :=
  TypeError "Cannot convert object to primitive value".

(** The outcome of a template literal or of [URLSearchParams] converting
    its values. *)
Definition converted {S A : Type} (o : option A) : eff S A :=
  match o with
  | Some a => ret a
  | None => throw conversion_error
  end.

(** [if (v) conditions.push(`<field> <op> '${v}'`)]; [opening] is the text
    up to the opening quote. *)
Definition date_condition (opening : string) (v : value)
  : option (list string) :=
  if truthy v
  then option_map (fun t => [opening ++ t ++ "'"]) (to_string v)
  else Some [].

(** The [conditions] array of [qbo_invoices_list]. *)
Definition invoice_conditions (today_ : string) (status startDate endDate : value)
  : option (list string) :=
  let by_status :=
    if is_str status "Paid" then ["Balance = '0'"]
    else if is_str status "Unpaid" then ["Balance > '0'"]
    else if is_str status "Overdue"
         then ["Balance > '0' AND DueDate < '" ++ today_ ++ "'"]
    else [] in
  match date_condition "TxnDate >= '" startDate,
        date_condition "TxnDate <= '" endDate with
  | Some by_start, Some by_end => Some (app by_status (app by_start by_end))
  | _, _ => None
  end.

(** [sql] after the [WHERE] clause and the paging clause were added. *)
Definition with_paging (select : string) (conditions : option (list string))
    (startPosition maxResults : value) : option string :=
  match conditions, to_string startPosition, to_string maxResults with
  | Some conds, Some positionText, Some sizeText =>
      Some (select
            ++ (match conds with
                | [] => ""
                | _ => " WHERE " ++ String.concat " AND " conds
                end)
            ++ " STARTPOSITION " ++ positionText
            ++ " MAXRESULTS " ++ sizeText)
  | _, _, _ => None
  end.

(** The query text of [qbo_invoices_list]. *)
Definition invoice_list_sql (today_ : string) (args : list (string * value))
  : option string :=
  with_paging "SELECT * FROM Invoice"
    (invoice_conditions today_ (lookup args "status") (lookup args "startDate")
                        (lookup args "endDate"))
    (or_default (VNum "1") (lookup args "startPosition"))
    (or_default (VNum "100") (lookup args "maxResults")).

(** [if (v) body.k = v] for each optional field, in order. *)
Definition optional_fields (args : list (string * value)) (keys : list string)
  : list (string * value) :=
  flat_map (fun k => if truthy (lookup args k) then [(k, lookup args k)] else [])
           keys.

(** [`${before}${v}`] *)
Definition prefixed (before : string) (v : value) : option string :=
  option_map (fun t => before ++ t) (to_string v).

(** [`${before}${v}${after}`] *)
Definition around (before : string) (v : value) (after : string)
  : option string :=
  option_map (fun t => before ++ t ++ after) (to_string v).

(** The values of a [params] record as [URLSearchParams] converts them.
    The conversion runs inside [request], before [fetch] is called; a
    handler that passes a record of argument values runs it on the way
    in. *)
Fixpoint convert_params (record : list (string * value))
  : option (list (string * string)) :=
  match record with
  | [] => Some []
  | (k, v) :: rest =>
      match to_string v, convert_params rest with
      | Some t, Some ts => Some ((k, t) :: ts)
      | _, _ => None
      end
  end.

(** [handleInvoiceTool] *)
Definition handleInvoiceTool (name_ : string) (args : list (string * value))
  : eff Env ToolResult :=
  client <- getClient ;;
  if (name_ =? "qbo_invoices_list")%string then
    today_ <- read_today ;;
    sql <- converted (invoice_list_sql today_ args) ;;
    response <- query client sql ;;
    ret (ok_result response)
  else if (name_ =? "qbo_invoices_get")%string then
    path <- converted (prefixed "invoice/" (lookup args "invoiceId")) ;;
    invoice <- get client path None ;;
    ret (ok_result invoice)
  else if (name_ =? "qbo_invoices_create")%string then
    let body :=
      VObj (app [("CustomerRef", lookup args "CustomerRef");
                 ("Line", lookup args "Line")]
                (optional_fields args
                   ["DueDate"; "TxnDate"; "BillEmail"; "PrivateNote";
                    "CustomerMemo"])) in
    invoice <- post client "invoice" body None ;;
    ret (ok_result invoice)
  else if (name_ =? "qbo_invoices_send")%string then
    let email := lookup args "email" in
    let record := if truthy email then [("sendTo", email)] else [] in
    path <- converted (around "invoice/" (lookup args "invoiceId") "/send") ;;
    params <- converted (convert_params record) ;;
    response <- post client path VUndefined (Some params) ;;
    ret (ok_result response)
  else
    ret (error_result ("Unknown invoice tool: " ++ name_)).

(** ** Navigation state and the tool router ([src/index.ts]) *)

(** [state.currentDomain]; the declared type is [Domain | null] but the cell
    holds whatever [qbo_navigate] was given. *)
Record ServerState : Type := {
  currentDomain : value
}.

Definition initial_state : ServerState := {| currentDomain := VNull |}.

(** The [ListToolsRequestSchema] handler.  Spreading [undefined] into
    [tools.push] throws; the handler has no [try]. *)
Definition listTools (state : ServerState) : outcome (list Tool) :=
  match currentDomain state with
  | VNull => Return [navigateTool]
  | d =>
      match getDomainTools d with
      | Some domainTools => Return (backTool :: domainTools)
      | None =>
          Throw (TypeError
            "Spread syntax requires ...iterable[Symbol.iterator] to be a function")
      end
  end.

(** The store a tool call runs against: the navigation state and the client
    environment. *)
Definition Store : Type := ServerState * Env.

Definition set_currentDomain (d : value) : eff Store unit :=
  fun s => (Return tt, ({| currentDomain := d |}, snd s)).

(** A domain handler runs against the environment only: [state] is private
    to [index.ts]. *)
Definition in_env {A : Type} (c : eff Env A) : eff Store A :=
  fun s => let (r, w') := c (snd s) in (r, (fst s, w')).

(** The four domain handlers whose bodies no property below depends on. *)
Variable handleCustomerTool : string -> list (string * value) -> eff Env ToolResult.
Variable handleExpenseTool : string -> list (string * value) -> eff Env ToolResult.
Variable handlePaymentTool : string -> list (string * value) -> eff Env ToolResult.
Variable handleReportTool : string -> list (string * value) -> eff Env ToolResult.

(** The body of the [try] block of the [CallToolRequestSchema] handler;
    [args] is [None] when the request carries no [arguments]. *)
Definition dispatch (name_ : string) (args : option (list (string * value)))
  : eff Store ToolResult :=
  if (name_ =? "qbo_navigate")%string then
    match args with
    | None =>
        throw (TypeError
          "Cannot destructure property 'domain' of 'args' as it is undefined.")
    | Some a =>
        let domain := lookup a "domain" in
        set_currentDomain domain ;;
        match getDomainTools domain with
        | None =>
            throw (TypeError
              "Cannot read properties of undefined (reading 'map')")
        | Some domainTools =>
            let toolNames := String.concat ", " (map name domainTools) in
            message <- converted
                         (around "Navigated to " domain
                                 (" domain. Available tools: " ++ toolNames)) ;;
            ret {| text := Plain message; isError := false |}
        end
    end
  else if (name_ =? "qbo_back")%string then
    set_currentDomain VNull ;;
    ret {| text := Plain "Returned to domain selection. Use qbo_navigate to select a domain: customers, invoices, expenses, payments, reports";
           isError := false |}
  else
    let toolArgs := match args with Some a => a | None => [] end in
    if String.prefix "qbo_customers_" name_ then
      in_env (handleCustomerTool name_ toolArgs)
    else if String.prefix "qbo_invoices_" name_ then
      in_env (handleInvoiceTool name_ toolArgs)
    else if String.prefix "qbo_expenses_" name_ then
      in_env (handleExpenseTool name_ toolArgs)
    else if String.prefix "qbo_payments_" name_ then
      in_env (handlePaymentTool name_ toolArgs)
    else if String.prefix "qbo_reports_" name_ then
      in_env (handleReportTool name_ toolArgs)
    else
      ret (error_result ("Unknown tool: " ++ name_
                         ++ ". Use qbo_navigate to select a domain first.")).

(** The [CallToolRequestSchema] handler: the [try] body and its [catch]. *)
Definition callTool (name_ : string) (args : option (list (string * value)))
    (s : Store) : ToolResult * Store :=
  match dispatch name_ args s with
  | (Return result, s') => (result, s')
  | (Throw error, s') => (error_result ("Error: " ++ message_of error), s')
  end.

(** ** The HTTP front ([startHttpTransport]) *)

(** The parts of an inbound HTTP request the server reads: the path and the
    two credential headers ([None] when the header is absent). *)
Record IncomingMessage : Type := {
  pathname : string;
  x_qbo_access_token : option string;
  x_qbo_realm_id : option string
}.

(** What the [createServer] callback does with a request: answer it itself,
    or pass it to [transport.handleRequest]. *)
Inductive ServerResponse : Type :=
| Health200 (authMode : string)
| Unauthorized401 (error message : string) (required_ : list string)
| NotFound404
| HandedToTransport.

(** The [createServer] callback; it runs synchronously from start to end. *)
Definition httpHandler (isGatewayMode : bool) (req : IncomingMessage) (w : Env)
  : ServerResponse * Env :=
  if (pathname req =? "/health")%string then
    (Health200 (if isGatewayMode then "gateway" else "env"), w)
  else if (pathname req =? "/mcp")%string then
    if isGatewayMode then
      if missing (x_qbo_access_token req) || missing (x_qbo_realm_id req) then
        (Unauthorized401 "Missing credentials"
           "Gateway mode requires X-Qbo-Access-Token and X-Qbo-Realm-Id headers"
           ["X-Qbo-Access-Token"; "X-Qbo-Realm-Id"], w)
      else
        let w1 := resetClient w in
        (HandedToTransport,
         {| _client := _client w1;
            QBO_ACCESS_TOKEN := x_qbo_access_token req;
            QBO_REALM_ID := x_qbo_realm_id req;
            upstream := upstream w1;
            sent := sent w1;
            today := today w1 |})
    else (HandedToTransport, w)
  else (NotFound404, w).

(** ** The event loop *)

(** The server is one thread: the [createServer] callback of a request and
    the tool-call handler the transport later invokes for it are separate
    turns of the loop, and turns of different requests may alternate.  A
    tool call takes its client in its first synchronous step and keeps it,
    so a turn is modelled as running through to the call's result. *)
Inductive event : Type :=
| Incoming (req : IncomingMessage)
| ToolCall (name_ : string) (args : option (list (string * value))).

Inductive output : Type :=
| Replied (r : ServerResponse)
| Resulted (r : ToolResult).

Definition run_event (isGatewayMode : bool) (ev : event) (s : Store)
  : output * Store :=
  match ev with
  | Incoming req =>
      let (r, w') := httpHandler isGatewayMode req (snd s) in
      (Replied r, (fst s, w'))
  | ToolCall name_ args =>
      let (r, s') := callTool name_ args s in
      (Resulted r, s')
  end.

Fixpoint run_schedule (isGatewayMode : bool) (evs : list event) (s : Store)
  : list output * Store :=
  match evs with
  | [] => ([], s)
  | ev :: rest =>
      let (o, s1) := run_event isGatewayMode ev s in
      let (os, s2) := run_schedule isGatewayMode rest s1 in
      (o :: os, s2)
  end.

End Server.

Arguments Env U : clear implicits.
Arguments Store U : clear implicits.
Arguments _client {U} _.
Arguments QBO_ACCESS_TOKEN {U} _.
Arguments QBO_REALM_ID {U} _.
Arguments upstream {U} _.
Arguments sent {U} _.
Arguments today {U} _.
Arguments do_fetch {U} fetch rq _.
Arguments request {U} fetch config method path params body _.
Arguments get {U} fetch config path params _.
Arguments post {U} fetch config path body params _.
Arguments query {U} fetch config sql _.
Arguments getPaginated_loop {U} fetch fuel config baseSql maxResults startPosition allItems w.
Arguments getPaginated {U} fetch fuel config baseSql maxResults w.
Arguments getClient {U} _.
Arguments resetClient {U} w.
Arguments read_today {U} _.
Arguments handleInvoiceTool {U} fetch name_ args _.
Arguments set_currentDomain {U} d _.
Arguments in_env {U A} c _.
Arguments dispatch {U} fetch _ _ _ _ name_ args _.
Arguments callTool {U} fetch _ _ _ _ name_ args s.
Arguments httpHandler {U} isGatewayMode req w.
Arguments run_event {U} fetch _ _ _ _ isGatewayMode ev s.
Arguments run_schedule {U} fetch _ _ _ _ isGatewayMode evs s.

(** ** The other domain handlers ([src/domains/*.ts]) *)

Section Handlers.

Variable U : Type.
Variable fetch : U -> HttpRequest -> FetchResult * U.

(** The two date conditions the expense and payment listings build. *)
Definition txn_date_conditions (startDate endDate : value)
  : option (list string) :=
  match date_condition "TxnDate >= '" startDate,
        date_condition "TxnDate <= '" endDate with
  | Some by_start, Some by_end => Some (app by_start by_end)
  | _, _ => None
  end.

(** The query text of a listing with optional date conditions; [table] is
    the entity after [SELECT * FROM]. *)
Definition dated_list_sql (table : string) (args : list (string * value))
  : option string :=
  with_paging ("SELECT * FROM " ++ table)
    (txn_date_conditions (lookup args "startDate") (lookup args "endDate"))
    (or_default (VNum "1") (lookup args "startPosition"))
    (or_default (VNum "100") (lookup args "maxResults")).

(** The query text of [qbo_customers_list]. *)
Definition customer_list_sql (args : list (string * value)) : option string :=
  with_paging "SELECT * FROM Customer" (Some [])
    (or_default (VNum "1") (lookup args "startPosition"))
    (or_default (VNum "100") (lookup args "maxResults")).

(** The query text of [qbo_customers_search]. *)
Definition customer_search_sql (args : list (string * value)) : option string :=
  match around "SELECT * FROM Customer WHERE DisplayName LIKE '%"
               (lookup args "term") "%'" with
  | Some select =>
      with_paging select (Some [])
        (or_default (VNum "1") (lookup args "startPosition"))
        (or_default (VNum "100") (lookup args "maxResults"))
  | None => None
  end.

(** [handleCustomerTool] *)
Definition handleCustomerTool (name_ : string) (args : list (string * value))
  : eff (Env U) ToolResult :=
  client <- getClient ;;
  if (name_ =? "qbo_customers_list")%string then
    sql <- converted (customer_list_sql args) ;;
    response <- query fetch client sql ;;
    ret (ok_result response)
  else if (name_ =? "qbo_customers_get")%string then
    path <- converted (prefixed "customer/" (lookup args "customerId")) ;;
    customer <- get fetch client path None ;;
    ret (ok_result customer)
  else if (name_ =? "qbo_customers_create")%string then
    let body :=
      VObj (app [("DisplayName", lookup args "DisplayName")]
                (optional_fields args
                   ["GivenName"; "FamilyName"; "CompanyName";
                    "PrimaryEmailAddr"; "PrimaryPhone"; "BillAddr"])) in
    customer <- post fetch client "customer" body None ;;
    ret (ok_result customer)
  else if (name_ =? "qbo_customers_search")%string then
    sql <- converted (customer_search_sql args) ;;
    response <- query fetch client sql ;;
    ret (ok_result response)
  else
    ret (error_result ("Unknown customer tool: " ++ name_)).

(** [handleExpenseTool] *)
Definition handleExpenseTool (name_ : string) (args : list (string * value))
  : eff (Env U) ToolResult :=
  client <- getClient ;;
  if (name_ =? "qbo_expenses_list_purchases")%string then
    sql <- converted (dated_list_sql "Purchase" args) ;;
    response <- query fetch client sql ;;
    ret (ok_result response)
  else if (name_ =? "qbo_expenses_list_bills")%string then
    sql <- converted (dated_list_sql "Bill" args) ;;
    response <- query fetch client sql ;;
    ret (ok_result response)
  else if (name_ =? "qbo_expenses_get_purchase")%string then
    path <- converted (prefixed "purchase/" (lookup args "purchaseId")) ;;
    purchase <- get fetch client path None ;;
    ret (ok_result purchase)
  else if (name_ =? "qbo_expenses_get_bill")%string then
    path <- converted (prefixed "bill/" (lookup args "billId")) ;;
    bill <- get fetch client path None ;;
    ret (ok_result bill)
  else
    ret (error_result ("Unknown expense tool: " ++ name_)).

(** [handlePaymentTool] *)
Definition handlePaymentTool (name_ : string) (args : list (string * value))
  : eff (Env U) ToolResult :=
  client <- getClient ;;
  if (name_ =? "qbo_payments_list")%string then
    sql <- converted (dated_list_sql "Payment" args) ;;
    response <- query fetch client sql ;;
    ret (ok_result response)
  else if (name_ =? "qbo_payments_get")%string then
    path <- converted (prefixed "payment/" (lookup args "paymentId")) ;;
    payment <- get fetch client path None ;;
    ret (ok_result payment)
  else if (name_ =? "qbo_payments_create")%string then
    let body :=
      VObj (app [("CustomerRef", lookup args "CustomerRef");
                 ("TotalAmt", lookup args "TotalAmt")]
                (optional_fields args
                   ["Line"; "TxnDate"; "PaymentMethodRef";
                    "DepositToAccountRef"; "PrivateNote"])) in
    payment <- post fetch client "payment" body None ;;
    ret (ok_result payment)
  else
    ret (error_result ("Unknown payment tool: " ++ name_)).

(** The [params] record of a report before [URLSearchParams] converts it:
    the named arguments as they are, then the optional ones that are
    truthy. *)
Definition report_params (args : list (string * value))
    (always optional : list string) : list (string * value) :=
  app (map (fun k => (k, lookup args k)) always)
      (optional_fields args optional).

(** [handleReportTool] *)
Definition handleReportTool (name_ : string) (args : list (string * value))
  : eff (Env U) ToolResult :=
  client <- getClient ;;
  if (name_ =? "qbo_reports_profit_and_loss")%string then
    params <- converted
                (convert_params (report_params args ["start_date"; "end_date"]
                                               ["accounting_method"])) ;;
    report <- get fetch client "reports/ProfitAndLoss" (Some params) ;;
    ret (ok_result report)
  else if (name_ =? "qbo_reports_balance_sheet")%string then
    params <- converted
                (convert_params (report_params args ["start_date"; "end_date"]
                                               ["accounting_method"])) ;;
    report <- get fetch client "reports/BalanceSheet" (Some params) ;;
    ret (ok_result report)
  else if (name_ =? "qbo_reports_aged_receivables")%string then
    params <- converted
                (convert_params (report_params args [] ["report_date"])) ;;
    report <- get fetch client "reports/AgedReceivables" (Some params) ;;
    ret (ok_result report)
  else if (name_ =? "qbo_reports_aged_payables")%string then
    params <- converted
                (convert_params (report_params args [] ["report_date"])) ;;
    report <- get fetch client "reports/AgedPayables" (Some params) ;;
    ret (ok_result report)
  else if (name_ =? "qbo_reports_customer_sales")%string then
    params <- converted
                (convert_params (report_params args ["start_date"; "end_date"]
                                               [])) ;;
    report <- get fetch client "reports/CustomerSales" (Some params) ;;
    ret (ok_result report)
  else
    ret (error_result ("Unknown report tool: " ++ name_)).

(** The router with the five handlers of the repository. *)
Definition serverDispatch : string -> option (list (string * value))
                            -> eff (Store U) ToolResult :=
  dispatch fetch handleCustomerTool handleExpenseTool handlePaymentTool
           handleReportTool.

Definition serverCallTool : string -> option (list (string * value))
                            -> Store U -> ToolResult * Store U :=
  callTool fetch handleCustomerTool handleExpenseTool handlePaymentTool
           handleReportTool.

Definition serverRun : bool -> list event -> Store U
                       -> list output * Store U :=
  run_schedule fetch handleCustomerTool handleExpenseTool handlePaymentTool
               handleReportTool.

(** [process.env.QBO_ACCESS_TOKEN = tok; process.env.QBO_REALM_ID = realm],
    with the singleton left alone. *)
Definition with_credentials (tok realm : option string) (w : Env U) : Env U :=
  {| _client := _client w;
     QBO_ACCESS_TOKEN := tok;
     QBO_REALM_ID := realm;
     upstream := upstream w;
     sent := sent w;
     today := today w |}.

End Handlers.

Arguments handleCustomerTool {U} fetch name_ args _.
Arguments handleExpenseTool {U} fetch name_ args _.
Arguments handlePaymentTool {U} fetch name_ args _.
Arguments handleReportTool {U} fetch name_ args _.
Arguments serverDispatch {U} fetch _ _ _.
Arguments serverCallTool {U} fetch _ _ _.
Arguments serverRun {U} fetch _ _ _.
Arguments with_credentials {U} tok realm w.

(** ** A scripted upstream *)

(** The upstream of a test: it answers the requests it receives with the
    scripted answers, in order, whatever the request says. *)
Definition scripted : Type := list FetchResult.

Definition scripted_fetch (u : scripted) (rq : HttpRequest)
  : FetchResult * scripted :=
  match u with
  | [] => (Rejected (TypeError "fetch failed"), [])
  | r :: rest => (r, rest)
  end.

(** The body of a 200 answer to a query: the entity array under its entity
    name, next to a paging field as QuickBooks adds them. *)
Definition page_body (entity : string) (items : list value) : value :=
  VObj [("QueryResponse",
         VObj [(entity, VArr items);
               ("maxResults", VNum (show_Z (Z.of_nat (length items))))])].

Definition page (entity : string) (items : list value) : FetchResult :=
  Responded {| rs_status := 200;
               rs_text := "";
               rs_json := Some (page_body entity items) |}.

(** [count] distinct items, numbered from [from]. *)
Definition numbered (from count : nat) : list value :=
  map (fun i => VNum (show_Z (Z.of_nat i))) (seq from count).

Definition fresh_env (script : scripted) : Env scripted :=
  {| _client := None;
     QBO_ACCESS_TOKEN := None;
     QBO_REALM_ID := None;
     upstream := script;
     sent := [];
     today := "2024-05-01" |}.

Definition acme : QboClientConfig :=
  {| accessToken := "tok-acme"; realmId := "1001" |}.

(** An environment whose singleton client is already built. *)
Definition signed_in (script : scripted) : Env scripted :=
  {| _client := Some acme;
     QBO_ACCESS_TOKEN := Some "tok-acme";
     QBO_REALM_ID := Some "1001";
     upstream := script;
     sent := [];
     today := "2024-05-01" |}.

(** An upstream failure and an empty success. *)
Definition server_error : FetchResult :=
  Responded {| rs_status := 500; rs_text := "boom"; rs_json := None |}.

Definition no_content : FetchResult :=
  Responded {| rs_status := 204; rs_text := ""; rs_json := None |}.

(** Batches of sizes 1000, 1000 and 400. *)
Definition three_pages : scripted :=
  [ page "Invoice" (numbered 1 1000);
    page "Invoice" (numbered 1001 1000);
    page "Invoice" (numbered 2001 400) ].

(** Two gateway requests of two tenants. *)
Definition request_of_a : IncomingMessage :=
  {| pathname := "/mcp";
     x_qbo_access_token := Some "token-a";
     x_qbo_realm_id := Some "realm-a" |}.

Definition request_of_b : IncomingMessage :=
  {| pathname := "/mcp";
     x_qbo_access_token := Some "token-b";
     x_qbo_realm_id := Some "realm-b" |}.

(** Gateway requests that lack one credential header each. *)
Definition request_without_realm : IncomingMessage :=
  {| pathname := "/mcp";
     x_qbo_access_token := Some "token-a";
     x_qbo_realm_id := None |}.

Definition request_without_token : IncomingMessage :=
  {| pathname := "/mcp";
     x_qbo_access_token := None;
     x_qbo_realm_id := Some "realm-a" |}.

(** ** Vocabulary of the specification *)

(** [descriptorsOf(d)]: the descriptor list a domain owns. *)
Definition descriptorsOf (d : Domain) : list Tool :=
  match d with
  | customers => customerTools
  | invoices => invoiceTools
  | expenses => expenseTools
  | payments => paymentTools
  | reports => reportTools
  end.

(** The arguments of [select(d)]. *)
Definition select_args (d : Domain) : option (list (string * value)) :=
  Some [("domain", VStr (domain_name d))].

(** The name prefix the router tests for a domain. *)
Definition domain_prefix (d : Domain) : string :=
  "qbo_" ++ domain_name d ++ "_".

(** The credential headers an inbound request lacks. *)
Definition missing_headers (req : IncomingMessage) : list string :=
  app (if missing (x_qbo_access_token req) then ["X-Qbo-Access-Token"] else [])
      (if missing (x_qbo_realm_id req) then ["X-Qbo-Realm-Id"] else []).

(** The header names a reply mentions as required. *)
Definition named_headers (r : ServerResponse) : list string :=
  match r with
  | Unauthorized401 _ _ required_ => required_
  | _ => []
  end.

(** The request [QboClient.query] sends for a query text. *)
Definition query_request (config : QboClientConfig) (sql : string) : HttpRequest :=
  build_request config "POST" "query" None (VStr sql).

(** The start positions of [n] rounds: [p], [p + m], [p + 2m], ... *)
Fixpoint start_positions (p m : Z) (n : nat) : list Z :=
  match n with
  | O => []
  | S n' => p :: start_positions (p + m) m n'
  end.

(** The requests of [n] rounds of a paginated fetch that starts at
    position [p] with page size [m]. *)
Definition page_requests (config : QboClientConfig) (baseSql : string)
    (m p : Z) (n : nat) : list HttpRequest :=
  map (fun q => query_request config (paginatedSql baseSql q m))
      (start_positions p m n).

(** The item batch of a round: the first array among the values of the
    response's [QueryResponse], when there is one. *)
Definition entities_of (response : value) : option (list value) :=
  match get_prop response "QueryResponse" with
  | Return qr =>
      if truthy qr then
        match find is_array (object_values qr) with
        | Some (VArr entities) => Some entities
        | _ => None
        end
      else None
  | Throw _ => None
  end.

Definition batch (response : value) : list value :=
  match entities_of response with
  | Some entities => entities
  | None => []
  end.

(** A round is followed by another one: its batch is not empty and not
    shorter than the page size. *)
Definition more_after (maxResults : Z) (response : value) : bool :=
  (0 <? length (batch response))%nat
  && negb (Z.of_nat (length (batch response)) <? maxResults).

(** A parsed response body other than [null]. *)
Definition structured (response : value) : bool :=
  match response with
  | VUndefined | VNull => false
  | _ => true
  end.

(** The parsed body an answer delivers to the caller of [request]: the
    answer is a 2xx response other than 204 whose body parses. *)
Definition delivers (r : FetchResult) : option value :=
  match r with
  | Responded resp =>
      if rs_ok resp && negb (rs_status resp =? 204) then rs_json resp else None
  | Rejected _ => None
  end.

(** [answers fetch u rqs rs u']: the upstream in state [u] answers the
    requests [rqs], sent one after the other, with [rs] and ends in [u']. *)
Inductive answers {U : Type} (fetch : U -> HttpRequest -> FetchResult * U)
  : U -> list HttpRequest -> list FetchResult -> U -> Prop :=
| answers_nil (u : U) : answers fetch u [] [] u
| answers_cons (u u1 u2 : U) (rq : HttpRequest) (r : FetchResult)
    (rqs : list HttpRequest) (rs : list FetchResult) :
    fetch u rq = (r, u1) ->
    answers fetch u1 rqs rs u2 ->
    answers fetch u (rq :: rqs) (r :: rs) u2.

(** The environment after the requests [rqs] went out and the upstream
    moved to [u']. *)
Definition after_requests {U : Type} (w : Env U) (rqs : list HttpRequest)
    (u' : U) : Env U :=
  {| _client := _client w;
     QBO_ACCESS_TOKEN := QBO_ACCESS_TOKEN w;
     QBO_REALM_ID := QBO_REALM_ID w;
     upstream := u';
     sent := (sent w ++ rqs)%list;
     today := today w |}.

(** The page size [getPaginated] works with. *)
Definition effective_page_size (maxResults : option Z) : Z :=
  match maxResults with
  | Some m => m
  | None => MAX_PAGE_SIZE
  end.

(** The word each handler puts in its "Unknown ... tool" message. *)
Definition domain_label (d : Domain) : string :=
  match d with
  | customers => "customer"
  | invoices => "invoice"
  | expenses => "expense"
  | payments => "payment"
  | reports => "report"
  end.

(** The domain tools that fetch one entity by id: the tool, the argument
    that holds the id and the path segment. *)
Definition get_tools : list (string * string * string) :=
  [ ("qbo_customers_get", "customerId", "customer");
    ("qbo_invoices_get", "invoiceId", "invoice");
    ("qbo_expenses_get_purchase", "purchaseId", "purchase");
    ("qbo_expenses_get_bill", "billId", "bill");
    ("qbo_payments_get", "paymentId", "payment") ].

(** All descriptors the server can ever list. *)
Definition all_tools : list Tool :=
  navigateTool :: backTool :: flat_map descriptorsOf all_domains.

(** An upstream that answers every request with the same answer. *)
Definition constant_fetch (r : FetchResult) (u : unit) (rq : HttpRequest)
  : FetchResult * unit := (r, tt).

(** An environment over the constant upstream, with the client built. *)
Definition constant_env : Env unit :=
  {| _client := Some acme;
     QBO_ACCESS_TOKEN := Some "tok-acme";
     QBO_REALM_ID := Some "1001";
     upstream := tt;
     sent := [];
     today := "2024-05-01" |}.

(** The handler the router hands a domain's tools to. *)
Definition handlerOf {U : Type} (fetch : U -> HttpRequest -> FetchResult * U)
    (d : Domain) : string -> list (string * value) -> eff (Env U) ToolResult :=
  match d with
  | customers => handleCustomerTool fetch
  | invoices => handleInvoiceTool fetch
  | expenses => handleExpenseTool fetch
  | payments => handlePaymentTool fetch
  | reports => handleReportTool fetch
  end.

(** An event that is a call of one of the two navigation tools. *)
Definition navigation_call (ev : event) : bool :=
  match ev with
  | ToolCall name_ _ =>
      (name_ =? "qbo_navigate")%string || (name_ =? "qbo_back")%string
  | Incoming _ => false
  end.

(** The error an answer makes [request] throw before any body is parsed:
    the rejection of [fetch], or the API error of a response outside
    200-299. *)
Definition failure_of (method path : string) (r : FetchResult) : option exn :=
  match r with
  | Rejected e => Some e
  | Responded resp =>
      if negb (rs_ok resp) then Some (api_error method path resp) else None
  end.

(** The tools that run a query with a paging clause, each with the text
    its query starts with when no filter argument is given. *)
Definition list_tools : list (string * string) :=
  [ ("qbo_customers_list", "SELECT * FROM Customer");
    ("qbo_invoices_list", "SELECT * FROM Invoice");
    ("qbo_expenses_list_purchases", "SELECT * FROM Purchase");
    ("qbo_expenses_list_bills", "SELECT * FROM Bill");
    ("qbo_payments_list", "SELECT * FROM Payment") ].

(** * Properties *)

(** ** Navigation and listing *)

Lemma getDomainTools_domain (d : Domain) :
  getDomainTools (VStr (domain_name d)) = Some (descriptorsOf d).
Proof. destruct d; reflexivity. Qed.

Lemma getDomainTools_unknown (x : string) :
  ~ In x (map domain_name all_domains) ->
  getDomainTools (VStr x) = None.
Proof.
  intros Hx. unfold getDomainTools, is_str.
  repeat match goal with
  | |- context [String.eqb x ?s] =>
      destruct (String.eqb_spec x s) as [-> | _];
      [ exfalso; apply Hx; simpl; tauto | ]
  end.
  reflexivity.
Qed.

Lemma listTools_in_domain (d : Domain) :
  listTools {| currentDomain := VStr (domain_name d) |}
  = Return (backTool :: descriptorsOf d).
Proof. unfold listTools; simpl. now rewrite getDomainTools_domain. Qed.

Section RouterProps.

Variable U : Type.
Variable fetch : U -> HttpRequest -> FetchResult * U.
Variables hCustomer hExpense hPayment hReport :
  string -> list (string * value) -> eff (Env U) ToolResult.

Let call := callTool fetch hCustomer hExpense hPayment hReport.
Let disp := dispatch fetch hCustomer hExpense hPayment hReport.

Lemma navigate_known (d : Domain) (a : list (string * value)) (s : Store U) :
  lookup a "domain" = VStr (domain_name d) ->
  snd (call "qbo_navigate" (Some a) s)
  = ({| currentDomain := VStr (domain_name d) |}, snd s).
Proof.
  intros Ha. unfold call, callTool, dispatch. simpl.
  unfold set_currentDomain. rewrite Ha, getDomainTools_domain. reflexivity.
Qed.

Lemma back_resets (args : option (list (string * value))) (s : Store U) :
  call "qbo_back" args s
  = ({| text := Plain "Returned to domain selection. Use qbo_navigate to select a domain: customers, invoices, expenses, payments, reports";
        isError := false |},
     (initial_state, snd s)).
Proof. reflexivity. Qed.

(** Tool names of two different domains never coincide. *)
Lemma descriptor_names_disjoint (d1 d2 : Domain) (t : Tool) :
  d1 <> d2 ->
  In t (descriptorsOf d1) ->
  ~ In (name t) (map name (backTool :: descriptorsOf d2)).
Proof.
  intros Hne Hin.
  destruct d1, d2; try congruence; clear Hne;
    simpl in Hin;
    repeat (destruct Hin as [<- | Hin]; [ simpl; intuition discriminate | ]);
    destruct Hin.
Qed.

(** C5: the listing depends on the navigation state only: at the root it is
    exactly the navigate tool, in a domain it is the back tool followed by
    that domain's descriptors; after [select(d1)] then [select(d2)] it is the
    back tool followed by [d2]'s descriptors, and when the two domains differ
    no tool name of [d1] occurs in it. *)
Theorem listing_follows_navigation (d1 d2 : Domain) (s : Store U) :
  listTools initial_state = Return [navigateTool]
  /\ listTools {| currentDomain := VStr (domain_name d2) |}
     = Return (backTool :: descriptorsOf d2)
  /\ (let s1 := snd (call "qbo_navigate" (select_args d1) s) in
      let s2 := snd (call "qbo_navigate" (select_args d2) s1) in
      listTools (fst s2) = Return (backTool :: descriptorsOf d2)
      /\ (d1 <> d2 ->
          forall t, In t (descriptorsOf d1) ->
                    ~ In (name t) (map name (backTool :: descriptorsOf d2)))).
Proof.
  split; [reflexivity | split; [apply listTools_in_domain | ]].
  cbv zeta. split.
  - unfold select_args. rewrite (navigate_known d2) by reflexivity.
    apply listTools_in_domain.
  - intros Hne t Ht. now apply descriptor_names_disjoint with (d1 := d1).
Qed.

(** C6: [back()] at the root leaves the root state and the environment as
    they were, and the listing is still the navigate tool alone; a second
    [back()] changes nothing after the first, from any state. *)
Theorem back_idempotent (args args' : option (list (string * value)))
    (s : Store U) (w : Env U) :
  snd (call "qbo_back" args (initial_state, w)) = (initial_state, w)
  /\ listTools (fst (snd (call "qbo_back" args (initial_state, w))))
     = Return [navigateTool]
  /\ (let s1 := snd (call "qbo_back" args s) in
      let s2 := snd (call "qbo_back" args' s1) in
      s2 = s1
      /\ listTools (fst s2) = listTools (fst s1)
      /\ listTools (fst s1) = Return [navigateTool]
      /\ fst (call "qbo_back" args' s1) = fst (call "qbo_back" args s)).
Proof.
  rewrite !back_resets. simpl. repeat split; reflexivity.
Qed.

(** C10: [qbo_navigate] with a string that is none of the five domain names
    stores the string in the navigation state before the lookup fails; the
    call answers a failed result, the stored string stays, and the next
    listing throws instead of answering a list. *)
Theorem navigate_unvalidated (x : string) (a : list (string * value))
    (s : Store U) :
  ~ In x (map domain_name all_domains) ->
  lookup a "domain" = VStr x ->
  disp "qbo_navigate" (Some a) s
  = (Throw (TypeError "Cannot read properties of undefined (reading 'map')"),
     ({| currentDomain := VStr x |}, snd s))
  /\ isError (fst (call "qbo_navigate" (Some a) s)) = true
  /\ snd (call "qbo_navigate" (Some a) s)
     = ({| currentDomain := VStr x |}, snd s)
  /\ exists e, listTools (fst (snd (call "qbo_navigate" (Some a) s))) = Throw e.
Proof.
  intros Hx Ha.
  assert (Hd : disp "qbo_navigate" (Some a) s
               = (Throw (TypeError "Cannot read properties of undefined (reading 'map')"),
                  ({| currentDomain := VStr x |}, snd s))).
  { unfold disp, dispatch. simpl. unfold set_currentDomain.
    rewrite Ha, (getDomainTools_unknown x Hx). reflexivity. }
  split; [exact Hd | ].
  unfold call, callTool. fold disp. rewrite Hd. simpl.
  repeat split.
  unfold listTools. simpl. rewrite (getDomainTools_unknown x Hx).
  eexists. reflexivity.
Qed.

End RouterProps.

(** ** The dispatch boundary *)

Section DispatchProps.

Variable U : Type.
Variable fetch : U -> HttpRequest -> FetchResult * U.
Variables hCustomer hExpense hPayment hReport :
  string -> list (string * value) -> eff (Env U) ToolResult.

Let call := callTool fetch hCustomer hExpense hPayment hReport.
Let disp := dispatch fetch hCustomer hExpense hPayment hReport.

Lemma dispatch_unmatched (name_ : string)
    (args : option (list (string * value))) (s : Store U) :
  name_ <> "qbo_navigate" ->
  name_ <> "qbo_back" ->
  (forall d, String.prefix (domain_prefix d) name_ = false) ->
  disp name_ args s
  = (Return (error_result ("Unknown tool: " ++ name_
                           ++ ". Use qbo_navigate to select a domain first.")),
     s).
Proof.
  intros Hnav Hback Hpre. unfold disp, dispatch.
  destruct (String.eqb_spec name_ "qbo_navigate") as [E | _]; [contradiction | ].
  destruct (String.eqb_spec name_ "qbo_back") as [E | _]; [contradiction | ].
  pose proof (Hpre customers) as Hc. pose proof (Hpre invoices) as Hi.
  pose proof (Hpre expenses) as He. pose proof (Hpre payments) as Hp.
  pose proof (Hpre reports) as Hr.
  unfold domain_prefix in *. cbn [domain_name append] in *.
  rewrite Hc, Hi, He, Hp, Hr. reflexivity.
Qed.

(** C7: a name that is neither navigation tool and carries none of the five
    domain prefixes gets a failed result ([isError] set) and the store is
    untouched; whatever the [try] body throws, for any call, comes back as a
    failed result whose text is the error's message; so every call answers
    a result. *)
Theorem dispatch_boundary (name_ : string)
    (args : option (list (string * value))) (s : Store U) :
  (name_ <> "qbo_navigate" ->
   name_ <> "qbo_back" ->
   (forall d, String.prefix (domain_prefix d) name_ = false) ->
   call name_ args s
   = ({| text := Plain ("Unknown tool: " ++ name_
                        ++ ". Use qbo_navigate to select a domain first.");
         isError := true |}, s))
  /\ (forall e s', disp name_ args s = (Throw e, s') ->
        call name_ args s
        = ({| text := Plain ("Error: " ++ message_of e); isError := true |}, s'))
  /\ (forall r s', disp name_ args s = (Return r, s') ->
        call name_ args s = (r, s'))
  /\ exists r s', call name_ args s = (r, s').
Proof.
  repeat split.
  - intros Hnav Hback Hpre. unfold call, callTool. fold disp.
    now rewrite dispatch_unmatched.
  - intros e s' Hd. unfold call, callTool. fold disp. now rewrite Hd.
  - intros r s' Hd. unfold call, callTool. fold disp. now rewrite Hd.
  - destruct (call name_ args s) as [r s']. now exists r, s'.
Qed.

End DispatchProps.

(** ** The upstream request *)

Section ClientProps.

Variable U : Type.
Variable fetch : U -> HttpRequest -> FetchResult * U.

Lemma request_unfold (config : QboClientConfig) (method path : string)
    (params : option (list (string * string))) (body : value) (w : Env U) :
  request fetch config method path params body w
  = let rq := build_request config method path params body in
    let w' := {| _client := _client w;
                 QBO_ACCESS_TOKEN := QBO_ACCESS_TOKEN w;
                 QBO_REALM_ID := QBO_REALM_ID w;
                 upstream := snd (fetch (upstream w) rq);
                 sent := (sent w ++ [rq])%list;
                 today := today w |} in
    (match fst (fetch (upstream w) rq) with
     | Rejected e => Throw e
     | Responded r =>
         if negb (rs_ok r) then Throw (api_error method path r)
         else if rs_status r =? 204 then Return VNull
         else match rs_json r with
              | Some v => Return v
              | None => Throw (SyntaxError "Unexpected token in JSON")
              end
     end, w').
Proof.
  unfold request, do_fetch. simpl.
  destruct (fetch (upstream w) _) as [[e | r] u']; simpl; [reflexivity | ].
  destruct (rs_ok r); simpl; [ | reflexivity].
  destruct (rs_status r =? 204); [reflexivity | ].
  destruct (rs_json r); reflexivity.
Qed.

(** C8: one call of [request] sends one request, with the bearer token of
    the client's own config, and leaves the client and the environment's
    credentials alone; a response outside 200-299 is thrown as an error
    whose message gives the method, the path, the status and the response
    body; a 204 gives [null]. *)
Theorem request_failure_mapping (config : QboClientConfig)
    (method path : string) (params : option (list (string * string)))
    (body : value) (w : Env U) :
  let rq := build_request config method path params body in
  let res := request fetch config method path params body w in
  sent (snd res) = (sent w ++ [rq])%list
  /\ rq_headers rq
     = [ ("Authorization", "Bearer " ++ accessToken config);
         ("Content-Type", "application/json");
         ("Accept", "application/json") ]
  /\ _client (snd res) = _client w
  /\ QBO_ACCESS_TOKEN (snd res) = QBO_ACCESS_TOKEN w
  /\ QBO_REALM_ID (snd res) = QBO_REALM_ID w
  /\ (forall r, fst (fetch (upstream w) rq) = Responded r ->
        (rs_status r < 200 \/ 299 < rs_status r) ->
        fst res
        = Throw (Error ("QBO API error " ++ method ++ " /" ++ path ++ " ("
                        ++ show_Z (rs_status r) ++ "): " ++ rs_text r)))
  /\ (forall r, fst (fetch (upstream w) rq) = Responded r ->
        rs_status r = 204 ->
        fst res = Return VNull).
Proof.
  cbv zeta. rewrite request_unfold. cbv zeta. cbn [fst snd sent _client
    QBO_ACCESS_TOKEN QBO_REALM_ID].
  repeat split.
  - intros r Hr Hst. rewrite Hr. unfold rs_ok.
    destruct Hst as [Hlo | Hhi].
    + destruct (Z.leb_spec 200 (rs_status r)); [lia | reflexivity].
    + destruct (Z.leb_spec (rs_status r) 299); [lia | ].
      rewrite andb_false_r. reflexivity.
  - intros r Hr Hst. rewrite Hr. unfold rs_ok. rewrite Hst. reflexivity.
Qed.

End ClientProps.

(** ** The paginated fetch *)

Section PaginationProps.

Variable U : Type.
Variable fetch : U -> HttpRequest -> FetchResult * U.

Lemma query_sends (config : QboClientConfig) (sql : string) (w : Env U) :
  snd (query fetch config sql w)
  = after_requests w [query_request config sql]
      (snd (fetch (upstream w) (query_request config sql))).
Proof. unfold query. rewrite request_unfold. reflexivity. Qed.

Lemma query_delivers (config : QboClientConfig) (sql : string) (w : Env U)
    (r : FetchResult) (u1 : U) (v : value) :
  fetch (upstream w) (query_request config sql) = (r, u1) ->
  delivers r = Some v ->
  query fetch config sql w
  = (Return v, after_requests w [query_request config sql] u1).
Proof.
  intros Hf Hd. unfold query. rewrite request_unfold. cbv zeta.
  fold (query_request config sql). rewrite Hf. cbn [fst snd].
  unfold after_requests. f_equal.
  destruct r as [e | resp]; [discriminate | ]. simpl in Hd.
  destruct (rs_ok resp); [ | discriminate]. simpl in *.
  destruct (rs_status resp =? 204); [discriminate | ]. simpl in Hd.
  now rewrite Hd.
Qed.

(** One round on a structured response: stop with the batch added, or go on
    from the next start position. *)
Lemma loop_round (fuel : nat) (config : QboClientConfig) (baseSql : string)
    (m p : Z) (acc : list value) (w w' : Env U) (response : value) :
  query fetch config (paginatedSql baseSql p m) w = (Return response, w') ->
  structured response = true ->
  getPaginated_loop fetch (S fuel) config baseSql m p acc w
  = if more_after m response
    then getPaginated_loop fetch fuel config baseSql m (p + m)
           (acc ++ batch response)%list w'
    else (Some (Return (acc ++ batch response)%list), w').
Proof.
  intros Hq Hs. cbn [getPaginated_loop]. rewrite Hq.
  unfold more_after, batch, entities_of.
  destruct (get_prop response "QueryResponse") as [qr | e] eqn:Hg.
  2:{ destruct response; simpl in *; discriminate. }
  destruct (truthy qr); [ | now rewrite app_nil_r].
  destruct (find is_array (object_values qr)) as [[ | | | | | entities | ] | ];
    try now rewrite app_nil_r.
  destruct entities as [ | x xs]; [now rewrite app_nil_r | ].
  cbn [length Nat.ltb Nat.leb andb].
  now destruct (Z.of_nat (S (length xs)) <? m).
Qed.

Lemma after_requests_app (w : Env U) (rqs rqs' : list HttpRequest) (u1 u2 : U) :
  after_requests (after_requests w rqs u1) rqs' u2
  = after_requests w (rqs ++ rqs') u2.
Proof. unfold after_requests. simpl. now rewrite app_assoc. Qed.

Lemma loop_rounds (config : QboClientConfig) (baseSql : string) (m : Z)
    (full : list value) :
  forall (last : value) (rs : list FetchResult) (p : Z) (acc : list value)
         (w : Env U) (u' : U) (fuel : nat),
    answers fetch (upstream w)
      (page_requests config baseSql m p (S (length full))) rs u' ->
    map delivers rs = map Some (full ++ [last]) ->
    forallb structured (full ++ [last]) = true ->
    forallb (more_after m) full = true ->
    more_after m last = false ->
    (length full < fuel)%nat ->
    getPaginated_loop fetch fuel config baseSql m p acc w
    = (Some (Return (acc ++ concat (map batch (full ++ [last])))%list),
       after_requests w (page_requests config baseSql m p (S (length full))) u').
Proof.
  induction full as [ | v full IH];
    intros last rs p acc w u' fuel Hans Hdel Hstr Hmore Hlast Hfuel.
  - destruct fuel as [ | fuel]; [lia | ].
    inversion Hans as [ | u0 u1 u2 rq r rqs rs' Hf Hrest]; subst.
    inversion Hrest; subst.
    simpl in Hdel. injection Hdel as Hd.
    simpl in Hstr. rewrite andb_true_r in Hstr.
    rewrite (loop_round fuel config baseSql m p acc w _ last
               (query_delivers _ _ _ _ _ _ Hf Hd) Hstr).
    rewrite Hlast. simpl. now rewrite app_nil_r.
  - destruct fuel as [ | fuel]; [simpl in Hfuel; lia | ].
    inversion Hans as [ | u0 u1 u2 rq r rqs rs' Hf Hrest]; subst.
    simpl in Hdel. injection Hdel as Hd Hdel.
    simpl in Hstr. apply andb_true_iff in Hstr as [Hsv Hstr].
    simpl in Hmore. apply andb_true_iff in Hmore as [Hmv Hmore].
    rewrite (loop_round fuel config baseSql m p acc w _ v
               (query_delivers _ _ _ _ _ _ Hf Hd) Hsv).
    rewrite Hmv.
    rewrite (IH last rs' (p + m) (acc ++ batch v)%list _ u' fuel);
      try assumption; [ | simpl in Hfuel; lia].
    rewrite after_requests_app. simpl. now rewrite <- app_assoc.
Qed.

(** C2, as the code has it: when the upstream answers the rounds with
    response bodies other than [null], of which all but the last carry a
    batch at least as long as the page size and the last one does not (a
    shorter batch, an empty one or no array at all), the fetch sends one
    query per response, at start positions 1, 1 + size, 1 + 2 size, ...,
    stops after the last one and returns the batches one after the other, as
    they came. *)
Theorem paginated_fetch_rounds (config : QboClientConfig) (baseSql : string)
    (m : Z) (full : list value) (last : value) (rs : list FetchResult)
    (w : Env U) (u' : U) (fuel : nat) :
  answers fetch (upstream w)
    (page_requests config baseSql m 1 (S (length full))) rs u' ->
  map delivers rs = map Some (full ++ [last]) ->
  forallb structured (full ++ [last]) = true ->
  forallb (more_after m) full = true ->
  more_after m last = false ->
  (length full < fuel)%nat ->
  getPaginated fetch fuel config baseSql (Some m) w
  = (Some (Return (concat (map batch (full ++ [last])))),
     after_requests w (page_requests config baseSql m 1 (S (length full))) u').
Proof.
  intros. unfold getPaginated.
  now rewrite (loop_rounds config baseSql m full last rs 1 [] w u' fuel).
Qed.

Lemma loop_sends (config : QboClientConfig) (baseSql : string) (m : Z)
    (fuel : nat) :
  forall (p : Z) (acc : list value) (w : Env U),
  exists n,
    sent (snd (getPaginated_loop fetch fuel config baseSql m p acc w))
    = (sent w ++ page_requests config baseSql m p n)%list.
Proof.
  induction fuel as [ | fuel IH]; intros p acc w.
  - exists O. simpl. now rewrite app_nil_r.
  - cbn [getPaginated_loop].
    pose proof (query_sends config (paginatedSql baseSql p m) w) as Hs.
    destruct (query fetch config (paginatedSql baseSql p m) w) as [[resp | e] w'].
    2:{ exists 1%nat. simpl in *. now rewrite Hs. }
    simpl in Hs.
    assert (Hone : sent w' = (sent w ++ page_requests config baseSql m p 1)%list)
      by now rewrite Hs.
    destruct (get_prop resp "QueryResponse") as [qr | e];
      [ | exists 1%nat; exact Hone].
    destruct (truthy qr); [ | exists 1%nat; exact Hone].
    destruct (find is_array (object_values qr))
      as [[ | | | | | entities | ] | ]; try (exists 1%nat; exact Hone).
    destruct (0 <? length entities)%nat; [ | exists 1%nat; exact Hone].
    destruct (Z.of_nat (length entities) <? m); [exists 1%nat; exact Hone | ].
    destruct (IH (p + m) (acc ++ entities)%list w') as [n Hn].
    exists (S n). rewrite Hn, Hone. simpl. now rewrite <- app_assoc.
Qed.

(** C3, as the code has it: with the page size left out the fetch works
    with 1000, and a supplied page size of at most 1000 is the value every
    request of the fetch carries after [MAXRESULTS], whatever the number of
    rounds: no request goes above 1000. *)
Theorem page_size_default_and_bound (fuel : nat) (config : QboClientConfig)
    (baseSql : string) (maxResults : option Z) (w : Env U) :
  (forall m, maxResults = Some m -> m <= 1000) ->
  effective_page_size None = 1000
  /\ effective_page_size maxResults <= 1000
  /\ exists n,
       sent (snd (getPaginated fetch fuel config baseSql maxResults w))
       = (sent w
          ++ map (fun p =>
                    query_request config
                      (baseSql ++ " STARTPOSITION " ++ show_Z p
                               ++ " MAXRESULTS "
                               ++ show_Z (effective_page_size maxResults)))
                 (start_positions 1 (effective_page_size maxResults) n))%list.
Proof.
  intros Hcap. split; [reflexivity | split].
  - destruct maxResults as [m | ]; simpl; [now apply Hcap | unfold MAX_PAGE_SIZE; lia].
  - unfold getPaginated. fold (effective_page_size maxResults).
    apply loop_sends.
Qed.

End PaginationProps.

(** ** Credentials in gateway mode *)

Section GatewayProps.

Variable U : Type.
Variable fetch : U -> HttpRequest -> FetchResult * U.
Variables hCustomer hExpense hPayment hReport :
  string -> list (string * value) -> eff (Env U) ToolResult.

Let run := run_schedule fetch hCustomer hExpense hPayment hReport true.

(** A gateway request with both headers resets the singleton and overwrites
    the two process-wide variables. *)
Lemma httpHandler_accepts (req : IncomingMessage) (tok realm : string)
    (w : Env U) :
  pathname req = "/mcp" ->
  x_qbo_access_token req = Some tok -> tok <> "" ->
  x_qbo_realm_id req = Some realm -> realm <> "" ->
  httpHandler true req w
  = (HandedToTransport,
     {| _client := None;
        QBO_ACCESS_TOKEN := Some tok;
        QBO_REALM_ID := Some realm;
        upstream := upstream w;
        sent := sent w;
        today := today w |}).
Proof.
  intros Hp Ht Htne Hr Hrne. unfold httpHandler, missing.
  rewrite Hp, Ht, Hr. simpl.
  destruct (String.eqb_spec tok ""); [contradiction | ].
  destruct (String.eqb_spec realm ""); [contradiction | ].
  reflexivity.
Qed.

(** Served one after the other, a call goes upstream with the pair of its
    own request. *)
Lemma sequential_call_uses_own_pair (id : string) (s : Store U) :
  sent (snd (snd (run [ Incoming request_of_a;
                        ToolCall "qbo_invoices_get"
                                 (Some [("invoiceId", VStr id)]) ] s)))
  = (sent (snd s)
     ++ [ build_request {| accessToken := "token-a"; realmId := "realm-a" |}
            "GET" ("invoice/" ++ id) None VUndefined ])%list.
Proof.
  unfold run. cbn [run_schedule run_event].
  rewrite (httpHandler_accepts request_of_a "token-a" "realm-a")
    by (reflexivity || discriminate).
  unfold callTool, dispatch. simpl.
  unfold in_env, handleInvoiceTool. simpl.
  unfold get. rewrite request_unfold. simpl.
  destruct (fst (fetch _ _)) as [e | r]; [reflexivity | ].
  destruct (rs_ok r); simpl; [ | reflexivity].
  destruct (rs_status r =? 204); [reflexivity | ].
  destruct (rs_json r); reflexivity.
Qed.

(** C1 fails on the code: when the callback of a second gateway request runs
    between the callback of the first request and the first request's tool
    call, that tool call goes upstream with the second request's token and
    realm. *)
Theorem interleaved_call_uses_other_pair (id : string) (s : Store U) :
  sent (snd (snd (run [ Incoming request_of_a;
                        Incoming request_of_b;
                        ToolCall "qbo_invoices_get"
                                 (Some [("invoiceId", VStr id)]) ] s)))
  = (sent (snd s)
     ++ [ {| rq_method := "GET";
             rq_url := "https://quickbooks.api.intuit.com/v3/company/realm-b/invoice/"
                       ++ id;
             rq_search := [("minorversion", "73")];
             rq_headers := [ ("Authorization", "Bearer token-b");
                             ("Content-Type", "application/json");
                             ("Accept", "application/json") ];
             rq_body := None |} ])%list.
Proof.
  unfold run. cbn [run_schedule run_event].
  rewrite (httpHandler_accepts request_of_a "token-a" "realm-a")
    by (reflexivity || discriminate).
  cbn [fst snd].
  rewrite (httpHandler_accepts request_of_b "token-b" "realm-b")
    by (reflexivity || discriminate).
  unfold callTool, dispatch. simpl.
  unfold in_env, handleInvoiceTool. simpl.
  unfold get. rewrite request_unfold. simpl.
  destruct (fst (fetch _ _)) as [e | r]; [reflexivity | ].
  destruct (rs_ok r); simpl; [ | reflexivity].
  destruct (rs_status r =? 204); [reflexivity | ].
  destruct (rs_json r); reflexivity.
Qed.

(** C4, as the code has it: in gateway mode a request to the MCP endpoint
    that lacks a credential header (or carries it empty) is answered 401
    "Missing credentials" with both header names listed as required; it is
    not handed to the transport and the environment, with the list of
    requests sent upstream, is unchanged. *)
Theorem missing_credentials_rejected (req : IncomingMessage) (s : Store U) :
  pathname req = "/mcp" ->
  missing_headers req <> [] ->
  httpHandler true req (snd s)
  = (Unauthorized401 "Missing credentials"
       "Gateway mode requires X-Qbo-Access-Token and X-Qbo-Realm-Id headers"
       ["X-Qbo-Access-Token"; "X-Qbo-Realm-Id"], snd s)
  /\ run [Incoming req] s
     = ([Replied (Unauthorized401 "Missing credentials"
           "Gateway mode requires X-Qbo-Access-Token and X-Qbo-Realm-Id headers"
           ["X-Qbo-Access-Token"; "X-Qbo-Realm-Id"])], s)
  /\ sent (snd (snd (run [Incoming req] s))) = sent (snd s).
Proof.
  intros Hp Hm.
  assert (Hh : httpHandler true req (snd s)
               = (Unauthorized401 "Missing credentials"
                    "Gateway mode requires X-Qbo-Access-Token and X-Qbo-Realm-Id headers"
                    ["X-Qbo-Access-Token"; "X-Qbo-Realm-Id"], snd s)).
  { unfold httpHandler. rewrite Hp. simpl.
    unfold missing_headers in Hm.
    destruct (missing (x_qbo_access_token req));
      destruct (missing (x_qbo_realm_id req)); simpl in *;
      try reflexivity. now contradiction Hm. }
  split; [exact Hh | ].
  unfold run. cbn [run_schedule run_event]. rewrite Hh.
  destruct s as [st w]. split; reflexivity.
Qed.

End GatewayProps.

(** ** The invoice list filter *)

Lemma append_assoc (a b c : string) : ((a ++ b) ++ c = a ++ (b ++ c))%string.
Proof. induction a as [ | x a IH]; simpl; [reflexivity | now rewrite IH]. Qed.


Section InvoiceProps.

Variable U : Type.
Variable fetch : U -> HttpRequest -> FetchResult * U.

Lemma bind_run {S A B : Type} (c : eff S A) (k : A -> eff S B) (s : S) :
  bind c k s
  = match c s with
    | (Return a, s') => k a s'
    | (Throw e, s') => (Throw e, s')
    end.
Proof. reflexivity. Qed.

Lemma converted_some {S A : Type} (a : A) (s : S) :
  converted (Some a) s = (Return a, s).
Proof. reflexivity. Qed.

Lemma converted_none {S A : Type} (s : S) :
  @converted S A None s = (Throw conversion_error, s).
Proof. reflexivity. Qed.

(** A [getClient] that returns leaves the client cached and the rest of the
    environment as it was. *)
Lemma getClient_returns (w : Env U) (c : QboClientConfig) :
  fst (getClient w) = Return c ->
  getClient w = (Return c, snd (getClient w))
  /\ _client (snd (getClient w)) = Some c
  /\ upstream (snd (getClient w)) = upstream w
  /\ sent (snd (getClient w)) = sent w
  /\ today (snd (getClient w)) = today w.
Proof.
  unfold getClient. destruct (_client w) as [c0 | ] eqn:Hc.
  - simpl. intros [= ->]. now repeat split.
  - destruct (missing (QBO_ACCESS_TOKEN w) || missing (QBO_REALM_ID w));
      [discriminate | ].
    destruct (QBO_ACCESS_TOKEN w), (QBO_REALM_ID w); try discriminate.
    simpl. intros [= <-]. now repeat split.
Qed.



End InvoiceProps.

(** ** Runs against the scripted upstream *)

Lemma start_positions_nth (n : nat) :
  forall (p m : Z) (i : nat),
    (i < n)%nat ->
    nth_error (start_positions p m n) i = Some (p + Z.of_nat i * m).
Proof.
  induction n as [ | n IH]; intros p m i Hi; [lia | ].
  destruct i as [ | i]; cbn [start_positions nth_error].
  - f_equal. lia.
  - rewrite IH by lia. f_equal. rewrite Nat2Z.inj_succ. ring.
Qed.

(** The run of C2: batches of 1000, 1000 and 400 items at page size 1000
    take three requests, at start positions 1, 1001 and 2001, and the 2400
    items come back in order. *)
Lemma three_pages_fetched :
  getPaginated scripted_fetch 3 acme "SELECT * FROM Invoice" (Some 1000)
    (fresh_env three_pages)
  = (Some (Return (numbered 1 2400)),
     after_requests (fresh_env three_pages)
       [ query_request acme
           "SELECT * FROM Invoice STARTPOSITION 1 MAXRESULTS 1000";
         query_request acme
           "SELECT * FROM Invoice STARTPOSITION 1001 MAXRESULTS 1000";
         query_request acme
           "SELECT * FROM Invoice STARTPOSITION 2001 MAXRESULTS 1000" ]
       []).
Proof.
  rewrite (paginated_fetch_rounds scripted scripted_fetch acme
             "SELECT * FROM Invoice" 1000
             [ page_body "Invoice" (numbered 1 1000);
               page_body "Invoice" (numbered 1001 1000) ]
             (page_body "Invoice" (numbered 2001 400))
             three_pages (fresh_env three_pages) [] 3).
  - vm_compute. reflexivity.
  - repeat (eapply answers_cons; [reflexivity | ]). apply answers_nil.
  - reflexivity.
  - reflexivity.
  - vm_compute. reflexivity.
  - vm_compute. reflexivity.
  - simpl. lia.
Defined.

(** A first batch shorter than the page size ends the fetch after one
    request. *)
Example short_first_batch :
  getPaginated scripted_fetch 5 acme "SELECT * FROM Customer" (Some 100)
    (fresh_env [page "Customer" (numbered 1 7)])
  = (Some (Return (numbered 1 7)),
     after_requests (fresh_env [page "Customer" (numbered 1 7)])
       [ query_request acme
           "SELECT * FROM Customer STARTPOSITION 1 MAXRESULTS 100" ]
       []).
Proof. vm_compute. reflexivity. Qed.

(** The same item in two batches is returned twice. *)
Example duplicates_kept :
  fst (getPaginated scripted_fetch 5 acme "SELECT * FROM Customer" (Some 2)
         (fresh_env [ page "Customer" [VNum "1"; VNum "2"];
                      page "Customer" [VNum "2"] ]))
  = Some (Return [VNum "1"; VNum "2"; VNum "2"]).
Proof. vm_compute. reflexivity. Qed.

(** C2 fails on the code: a round answered 204 (or with the JSON body
    [null]) has no array-valued field, yet the fetch does not stop and
    return the batch it has: reading [QueryResponse] of [null] throws, and
    the two items of the first round are lost. *)
Lemma null_round_loses_batches :
  fst (getPaginated scripted_fetch 5 acme "SELECT * FROM Customer" (Some 2)
         (fresh_env [page "Customer" (numbered 1 2); no_content]))
  = Some (Throw (TypeError
       "Cannot read properties of null (reading 'QueryResponse')"))
  /\ fst (getPaginated scripted_fetch 5 acme "SELECT * FROM Customer" (Some 2)
            (fresh_env [page "Customer" (numbered 1 2); no_content]))
     <> Some (Return (numbered 1 2))
  /\ entities_of VNull = None.
Proof.
  split; [vm_compute; reflexivity | split; [vm_compute; discriminate | reflexivity]].
Qed.

(** A 204 answer to a page query makes the loop throw on the property
    read. *)
Example null_page_throws :
  fst (getPaginated scripted_fetch 5 acme "SELECT * FROM Customer" (Some 2)
         (fresh_env [ Responded {| rs_status := 204; rs_text := "";
                                   rs_json := None |} ]))
  = Some (Throw (TypeError
       "Cannot read properties of null (reading 'QueryResponse')")).
Proof. vm_compute. reflexivity. Qed.

(** C3 fails on the code: with the page size left out the request asks for
    1000 rows, not 100, and a page size of 5000 goes out as it is. *)
Lemma page_size_not_capped :
  effective_page_size None <> 100
  /\ sent (snd (getPaginated scripted_fetch 1 acme "SELECT * FROM Customer" None
                  (fresh_env [page "Customer" []])))
     = [ query_request acme
           "SELECT * FROM Customer STARTPOSITION 1 MAXRESULTS 1000" ]
  /\ sent (snd (getPaginated scripted_fetch 1 acme "SELECT * FROM Customer"
                  (Some 5000) (fresh_env [page "Customer" []])))
     = [ query_request acme
           "SELECT * FROM Customer STARTPOSITION 1 MAXRESULTS 5000" ]
  /\ 1000 < 5000.
Proof.
  split; [discriminate | ].
  split; [vm_compute; reflexivity | ].
  split; [vm_compute; reflexivity | reflexivity].
Qed.

(** A page size of 250 is what every request of the fetch asks for. *)
Lemma page_size_250_carried :
  (forall m, Some 250 = Some m -> m <= 1000)
  /\ effective_page_size (Some 250) <= 1000
  /\ exists n,
       sent (snd (getPaginated scripted_fetch 4 acme "SELECT * FROM Bill"
                    (Some 250)
                    (fresh_env [ page "Bill" (numbered 1 250);
                                 page "Bill" (numbered 251 3) ])))
       = map (fun p => query_request acme
                         ("SELECT * FROM Bill STARTPOSITION " ++ show_Z p
                          ++ " MAXRESULTS 250"))
             (start_positions 1 250 n).
Proof.
  assert (H : forall m, Some 250 = Some m -> m <= 1000)
    by (intros m [= <-]; lia).
  split; [exact H | ].
  destruct (page_size_default_and_bound scripted scripted_fetch 4 acme
              "SELECT * FROM Bill" (Some 250)
              (fresh_env [ page "Bill" (numbered 1 250);
                           page "Bill" (numbered 251 3) ]) H)
    as [_ [Hle [n Hn]]].
  split; [exact Hle | ].
  exists n. exact Hn.
Defined.

(** C4 fails on the code: a request that lacks the realm header only and a
    request that lacks the token header only get the same reply, which
    lists both headers; the header that is present is named too. *)
Lemma missing_header_not_singled_out :
  missing_headers request_without_realm = ["X-Qbo-Realm-Id"]
  /\ missing_headers request_without_token = ["X-Qbo-Access-Token"]
  /\ named_headers (fst (httpHandler true request_without_realm (fresh_env [])))
     = ["X-Qbo-Access-Token"; "X-Qbo-Realm-Id"]
  /\ named_headers (fst (httpHandler true request_without_realm (fresh_env [])))
     <> missing_headers request_without_realm
  /\ fst (httpHandler true request_without_realm (fresh_env []))
     = fst (httpHandler true request_without_token (fresh_env [])).
Proof.
  repeat split; try reflexivity. vm_compute. discriminate.
Qed.

(** A gateway request without the realm header is answered 401 and
    changes nothing. *)
Lemma request_without_realm_rejected :
  pathname request_without_realm = "/mcp"
  /\ missing_headers request_without_realm <> []
  /\ run_schedule scripted_fetch
       (handleInvoiceTool scripted_fetch) (handleInvoiceTool scripted_fetch)
       (handleInvoiceTool scripted_fetch) (handleInvoiceTool scripted_fetch)
       true [Incoming request_without_realm] (initial_state, fresh_env three_pages)
     = ([Replied (Unauthorized401 "Missing credentials"
           "Gateway mode requires X-Qbo-Access-Token and X-Qbo-Realm-Id headers"
           ["X-Qbo-Access-Token"; "X-Qbo-Realm-Id"])],
        (initial_state, fresh_env three_pages)).
Proof.
  assert (Hp : pathname request_without_realm = "/mcp") by reflexivity.
  assert (Hm : missing_headers request_without_realm <> [])
    by (vm_compute; discriminate).
  split; [exact Hp | split; [exact Hm | ]].
  exact (proj1 (proj2 (missing_credentials_rejected scripted scripted_fetch
                         (handleInvoiceTool scripted_fetch)
                         (handleInvoiceTool scripted_fetch)
                         (handleInvoiceTool scripted_fetch)
                         (handleInvoiceTool scripted_fetch)
                         request_without_realm
                         (initial_state, fresh_env three_pages) Hp Hm))).
Defined.

(** In the runs below the router works on the scripted upstream, with the
    invoice handler in the place of each of the four other handlers. *)

(** [select(customers)] then [select(invoices)]: the listing is the back
    tool and the invoice tools, and no customer tool is named in it. *)
Lemma customers_then_invoices :
  customers <> invoices
  /\ listTools
       (fst (snd (callTool scripted_fetch
                    (handleInvoiceTool scripted_fetch)
                    (handleInvoiceTool scripted_fetch)
                    (handleInvoiceTool scripted_fetch)
                    (handleInvoiceTool scripted_fetch)
                    "qbo_navigate" (select_args invoices)
                    (snd (callTool scripted_fetch
                            (handleInvoiceTool scripted_fetch)
                            (handleInvoiceTool scripted_fetch)
                            (handleInvoiceTool scripted_fetch)
                            (handleInvoiceTool scripted_fetch)
                            "qbo_navigate" (select_args customers)
                            (initial_state, fresh_env []))))))
     = Return (backTool :: invoiceTools)
  /\ (forall t, In t customerTools ->
                ~ In (name t) (map name (backTool :: invoiceTools))).
Proof.
  assert (Hne : customers <> invoices) by discriminate.
  destruct (listing_follows_navigation scripted scripted_fetch
              (handleInvoiceTool scripted_fetch)
              (handleInvoiceTool scripted_fetch)
              (handleInvoiceTool scripted_fetch)
              (handleInvoiceTool scripted_fetch)
              customers invoices (initial_state, fresh_env []))
    as [_ [_ [Hlist Habsent]]].
  split; [exact Hne | split; [exact Hlist | exact (Habsent Hne)]].
Defined.

(** An unmatched name and an upstream failure both come back as failed
    results. *)
Lemma unknown_name_and_thrown_error :
  fst (callTool scripted_fetch
         (handleInvoiceTool scripted_fetch) (handleInvoiceTool scripted_fetch)
         (handleInvoiceTool scripted_fetch) (handleInvoiceTool scripted_fetch)
         "qbo_frobnicate" None (initial_state, fresh_env []))
  = {| text := Plain "Unknown tool: qbo_frobnicate. Use qbo_navigate to select a domain first.";
       isError := true |}
  /\ fst (callTool scripted_fetch
            (handleInvoiceTool scripted_fetch) (handleInvoiceTool scripted_fetch)
            (handleInvoiceTool scripted_fetch) (handleInvoiceTool scripted_fetch)
            "qbo_invoices_get" (Some [("invoiceId", VStr "7")])
            (initial_state, signed_in [server_error]))
     = {| text := Plain "Error: QBO API error GET /invoice/7 (500): boom";
          isError := true |}.
Proof.
  split.
  - rewrite (proj1 (dispatch_boundary scripted scripted_fetch
                      (handleInvoiceTool scripted_fetch)
                      (handleInvoiceTool scripted_fetch)
                      (handleInvoiceTool scripted_fetch)
                      (handleInvoiceTool scripted_fetch)
                      "qbo_frobnicate" None (initial_state, fresh_env []))).
    + reflexivity.
    + discriminate.
    + discriminate.
    + intros d; destruct d; reflexivity.
  - rewrite (proj1 (proj2 (dispatch_boundary scripted scripted_fetch
                      (handleInvoiceTool scripted_fetch)
                      (handleInvoiceTool scripted_fetch)
                      (handleInvoiceTool scripted_fetch)
                      (handleInvoiceTool scripted_fetch)
                      "qbo_invoices_get" (Some [("invoiceId", VStr "7")])
                      (initial_state, signed_in [server_error])))
               (Error "QBO API error GET /invoice/7 (500): boom")
               (initial_state,
                after_requests (signed_in [server_error])
                  [build_request acme "GET" "invoice/7" None VUndefined] [])).
    + reflexivity.
    + vm_compute. reflexivity.
Defined.

(** A 500 answer is thrown with method, path, status and body in the
    message; a 204 answer is [null]. *)
Lemma server_error_and_no_content :
  fst (request scripted_fetch acme "GET" "invoice/7" None VUndefined
         (signed_in [server_error]))
  = Throw (Error "QBO API error GET /invoice/7 (500): boom")
  /\ fst (request scripted_fetch acme "POST" "invoice/7/send" (Some [])
            VUndefined (signed_in [no_content]))
     = Return VNull.
Proof.
  split.
  - destruct (request_failure_mapping scripted scripted_fetch acme
                "GET" "invoice/7" None VUndefined (signed_in [server_error]))
      as [_ [_ [_ [_ [_ [Hfail _]]]]]].
    apply (Hfail {| rs_status := 500; rs_text := "boom"; rs_json := None |});
      [reflexivity | right; reflexivity].
  - destruct (request_failure_mapping scripted scripted_fetch acme
                "POST" "invoice/7/send" (Some []) VUndefined
                (signed_in [no_content]))
      as [_ [_ [_ [_ [_ [_ Hnull]]]]]].
    apply (Hnull {| rs_status := 204; rs_text := ""; rs_json := None |});
      reflexivity.
Defined.


(** Navigating to a name that is no domain leaves that name in the state
    and breaks the next listing. *)
Lemma navigate_to_bogus :
  ~ In "bogus" (map domain_name all_domains)
  /\ snd (callTool scripted_fetch
            (handleInvoiceTool scripted_fetch) (handleInvoiceTool scripted_fetch)
            (handleInvoiceTool scripted_fetch) (handleInvoiceTool scripted_fetch)
            "qbo_navigate" (Some [("domain", VStr "bogus")])
            (initial_state, fresh_env []))
     = ({| currentDomain := VStr "bogus" |}, fresh_env [])
  /\ exists e,
       listTools
         (fst (snd (callTool scripted_fetch
                      (handleInvoiceTool scripted_fetch)
                      (handleInvoiceTool scripted_fetch)
                      (handleInvoiceTool scripted_fetch)
                      (handleInvoiceTool scripted_fetch)
                      "qbo_navigate" (Some [("domain", VStr "bogus")])
                      (initial_state, fresh_env []))))
       = Throw e.
Proof.
  assert (Hx : ~ In "bogus" (map domain_name all_domains))
    by (simpl; intuition discriminate).
  destruct (navigate_unvalidated scripted scripted_fetch
              (handleInvoiceTool scripted_fetch)
              (handleInvoiceTool scripted_fetch)
              (handleInvoiceTool scripted_fetch)
              (handleInvoiceTool scripted_fetch)
              "bogus" [("domain", VStr "bogus")]
              (initial_state, fresh_env []) Hx eq_refl)
    as [_ [_ [Hstate Hlist]]].
  split; [exact Hx | split; [exact Hstate | exact Hlist]].
Defined.

(** * Further properties of the code *)

(** ** The singleton client *)

Section SingletonProps.

Variable U : Type.

(** X1: the client is built once: after a successful [getClient], later
    calls give the same client and change nothing, also when the two
    environment variables have been overwritten in between. *)
Theorem getClient_cached (w w1 : Env U) (c : QboClientConfig)
    (tok realm : option string) :
  getClient w = (Return c, w1) ->
  getClient w1 = (Return c, w1)
  /\ getClient (with_credentials tok realm w1)
     = (Return c, with_credentials tok realm w1).
Proof.
  intros Hg.
  assert (Hc : _client w1 = Some c).
  { unfold getClient in Hg. destruct (_client w) as [c0 | ] eqn:Hw.
    - injection Hg as <- <-. exact Hw.
    - destruct (missing (QBO_ACCESS_TOKEN w) || missing (QBO_REALM_ID w));
        [discriminate | ].
      destruct (QBO_ACCESS_TOKEN w), (QBO_REALM_ID w); try discriminate.
      injection Hg as <- <-. reflexivity. }
  unfold getClient, with_credentials. simpl. now rewrite Hc.
Qed.

Lemma getClient_throw_is_credentials (w w' : Env U) (e : exn) :
  getClient w = (Throw e, w') -> e = credentials_required /\ w' = w.
Proof.
  unfold getClient. destruct (_client w); [discriminate | ].
  destruct (missing (QBO_ACCESS_TOKEN w) || missing (QBO_REALM_ID w)).
  - intros [= <- <-]. now split.
  - destruct (QBO_ACCESS_TOKEN w), (QBO_REALM_ID w); try discriminate;
      intros [= <- <-]; now split.
Qed.

(** X3: [getClient] throws exactly when no client is cached and one of the
    two variables is unset or empty; what it throws is then the error that
    names both variables, and the environment is left as it was. *)
Theorem getClient_throws_iff (w : Env U) :
  ((_client w = None
    /\ (missing (QBO_ACCESS_TOKEN w) || missing (QBO_REALM_ID w)) = true)
   <-> exists e w', getClient w = (Throw e, w'))
  /\ (forall e w', getClient w = (Throw e, w') ->
                   e = credentials_required /\ w' = w).
Proof.
  split; [ | intros e w'; apply getClient_throw_is_credentials].
  unfold getClient. split.
  - intros [Hc Hm]. rewrite Hc, Hm. now exists credentials_required, w.
  - intros [e [w' Hg]]. revert Hg.
    destruct (_client w); [discriminate | ].
    destruct (missing (QBO_ACCESS_TOKEN w) || missing (QBO_REALM_ID w)) eqn:Hm;
      [now split | ].
    unfold missing in Hm.
    destruct (QBO_ACCESS_TOKEN w), (QBO_REALM_ID w); simpl in Hm;
      rewrite ?orb_true_r in Hm; try discriminate Hm; intros H; discriminate H.
Qed.

(** X2: whatever client was cached before, after the callback of a gateway
    request that carries both headers the next [getClient] builds the client
    from exactly that request's token and realm. *)
Theorem gateway_request_sets_client (req : IncomingMessage) (tok realm : string)
    (w : Env U) :
  pathname req = "/mcp" ->
  x_qbo_access_token req = Some tok -> tok <> "" ->
  x_qbo_realm_id req = Some realm -> realm <> "" ->
  fst (getClient (snd (httpHandler true req w)))
  = Return {| accessToken := tok; realmId := realm |}.
Proof.
  intros Hp Ht Htne Hr Hrne.
  rewrite (httpHandler_accepts U req tok realm w Hp Ht Htne Hr Hrne).
  unfold getClient, missing. simpl.
  destruct (String.eqb_spec tok ""); [contradiction | ].
  destruct (String.eqb_spec realm ""); [contradiction | ].
  reflexivity.
Qed.

(** The callback never sends anything upstream and, unless it hands a
    gateway request with both headers to the transport, returns the
    environment as it was. *)
Lemma httpHandler_inert (mode : bool) (req : IncomingMessage) (w : Env U) :
  upstream (snd (httpHandler mode req w)) = upstream w
  /\ sent (snd (httpHandler mode req w)) = sent w
  /\ (mode = false \/ pathname req <> "/mcp" \/ missing_headers req <> []
      -> snd (httpHandler mode req w) = w).
Proof.
  unfold httpHandler, missing_headers.
  destruct (String.eqb_spec (pathname req) "/health") as [Hh | Hh];
    [repeat split | ].
  destruct (String.eqb_spec (pathname req) "/mcp") as [Hm | Hm];
    [ | repeat split].
  destruct mode; [ | repeat split].
  destruct (missing (x_qbo_access_token req));
    destruct (missing (x_qbo_realm_id req)); simpl; repeat split.
  intros [H | [H | H]]; [discriminate | contradiction | now contradiction H].
Qed.

End SingletonProps.

Section EnvModeProps.

Variable U : Type.
Variable fetch : U -> HttpRequest -> FetchResult * U.
Variables hCustomer hExpense hPayment hReport :
  string -> list (string * value) -> eff (Env U) ToolResult.

(** X4: in env mode HTTP requests alone never change the store: after any
    number of requests, to any path and with any headers, the client, the
    credentials, the navigation state and the list of upstream requests are
    what they were. *)
Theorem env_mode_requests_change_nothing (reqs : list IncomingMessage)
    (s : Store U) :
  snd (run_schedule fetch hCustomer hExpense hPayment hReport false
         (map Incoming reqs) s) = s.
Proof.
  revert s. induction reqs as [ | req reqs IH]; intros s; [reflexivity | ].
  cbn [map run_schedule run_event].
  destruct (httpHandler_inert U false req (snd s)) as [_ [_ Hsame]].
  destruct (httpHandler false req (snd s)) as [r w'] eqn:Hh.
  simpl in Hsame. rewrite (Hsame (or_introl eq_refl)).
  specialize (IH (fst s, snd s)).
  destruct (run_schedule _ _ _ _ _ false (map Incoming reqs) (fst s, snd s))
    as [os s2].
  simpl in *. rewrite IH. now destruct s.
Qed.

End EnvModeProps.

(** ** Query parameters *)

Lemma absent_key (o : list (string * string)) (k : string) :
  ~ In k (map fst o) -> existsb (fun kv => (fst kv =? k)%string) o = false.
Proof.
  induction o as [ | [k' v'] o IH]; intros Hk; [reflexivity | ].
  simpl in *. destruct (String.eqb_spec k' k) as [-> | _];
    [exfalso; apply Hk; now left | ].
  apply IH. intros H. apply Hk. now right.
Qed.

Lemma assign_fresh (o : list (string * string)) (k v : string) :
  ~ In k (map fst o) -> array_index k = None ->
  assign o k v = (o ++ [(k, v)])%list.
Proof.
  intros Hk Hi. unfold assign. now rewrite (absent_key o k Hk), Hi.
Qed.

Lemma spread_fresh (extra : list (string * string)) :
  forall o : list (string * string),
    NoDup (map fst extra) ->
    (forall k, In k (map fst extra) -> ~ In k (map fst o)) ->
    (forall k, In k (map fst extra) -> array_index k = None) ->
    spread o extra = (o ++ extra)%list.
Proof.
  unfold spread.
  induction extra as [ | [k v] extra IH]; intros o Hnd Hdis Hidx; simpl.
  - now rewrite app_nil_r.
  - inversion Hnd as [ | ? ? Hk Hnd']; subst.
    rewrite assign_fresh;
      [ | apply Hdis; now left | apply Hidx; now left].
    rewrite IH; [now rewrite <- app_assoc | exact Hnd' | | ].
    + intros k' Hk' Hin. rewrite map_app in Hin. apply in_app_or in Hin.
      destruct Hin as [Hin | [<- | []]].
      * apply (Hdis k'); [now right | exact Hin].
      * now apply Hk.
    + intros k' Hk'. apply Hidx. now right.
Qed.

(** X5: when the caller's parameters have distinct names, none of them
    [minorversion] and none an array index, the query string is
    [minorversion=73] followed by the caller's parameters in their order; a
    parameter whose name is an array index is listed before the version
    pin. *)
Theorem search_params_order (config : QboClientConfig) (method path : string)
    (params : list (string * string)) (body : value) :
  (NoDup (map fst params) ->
   ~ In "minorversion" (map fst params) ->
   (forall k, In k (map fst params) -> array_index k = None) ->
   rq_search (build_request config method path (Some params) body)
   = ("minorversion", "73") :: params)
  /\ (forall k v n, array_index k = Some n ->
        rq_search (build_request config method path (Some [(k, v)]) body)
        = [(k, v); ("minorversion", "73")]).
Proof.
  unfold build_request. cbn [rq_search]. split.
  - intros Hnd Hno Hidx. rewrite spread_fresh; [reflexivity | exact Hnd | | exact Hidx].
    intros k Hk [<- | []]. contradiction.
  - intros k v n Hk. unfold spread, MINOR_VERSION. cbn [fold_left fst snd].
    unfold assign. cbn [existsb fst orb].
    destruct (String.eqb_spec "minorversion" k) as [<- | _];
      [discriminate Hk | ].
    rewrite Hk. reflexivity.
Qed.

(** The query string of a request whose parameters are named [2] and [b]. *)
Example index_name_goes_first :
  rq_search (build_request acme "GET" "reports/ProfitAndLoss"
               (Some [("2", "a"); ("b", "c")]) VUndefined)
  = [("2", "a"); ("minorversion", "73"); ("b", "c")].
Proof. reflexivity. Qed.

(** ** Tool names and routing *)

Lemma prefix_step (a : ascii) (s n : string) :
  String.prefix (String a s) n = true ->
  exists n', n = String a n' /\ String.prefix s n' = true.
Proof.
  destruct n as [ | b n']; simpl; [discriminate | ].
  destruct (ascii_dec a b) as [<- | _]; [ | discriminate].
  intros H. now exists n'.
Qed.

Lemma domain_prefixes_apart (d1 d2 : Domain) (n : string) :
  d1 <> d2 ->
  String.prefix (domain_prefix d1) n = true ->
  String.prefix (domain_prefix d2) n = false.
Proof.
  intros Hne H.
  destruct d1; cbv [domain_prefix domain_name append] in H;
    do 5 (apply prefix_step in H as [? [-> H]]);
    destruct d2; try congruence; reflexivity.
Qed.

Lemma descriptor_has_prefix (d : Domain) (t : Tool) :
  In t (descriptorsOf d) -> String.prefix (domain_prefix d) (name t) = true.
Proof.
  destruct d; simpl; intros H;
    repeat (destruct H as [<- | H]; [reflexivity | ]); destruct H.
Qed.

(** X6: the five name prefixes exclude one another, neither navigation name
    carries one, and every descriptor a domain lists carries that domain's
    prefix: the order of the router's tests does not matter and a listed
    tool can only reach the handler of its own domain. *)
Theorem domain_prefixes_disjoint (d1 d2 : Domain) (n : string) :
  (d1 <> d2 ->
   String.prefix (domain_prefix d1) n = true ->
   String.prefix (domain_prefix d2) n = false)
  /\ String.prefix (domain_prefix d1) (name navigateTool) = false
  /\ String.prefix (domain_prefix d1) (name backTool) = false
  /\ (forall t, In t (descriptorsOf d1) ->
                String.prefix (domain_prefix d1) (name t) = true
                /\ (d1 <> d2 -> String.prefix (domain_prefix d2) (name t) = false)).
Proof.
  split; [apply domain_prefixes_apart | ].
  split; [now destruct d1 | split; [now destruct d1 | ]].
  intros t Ht. split; [now apply descriptor_has_prefix | ].
  intros Hne. apply (domain_prefixes_apart d1 d2); [exact Hne | ].
  now apply descriptor_has_prefix.
Qed.

(** X7: as the repository's test asserts, every domain exports at least one
    descriptor and no two descriptors share a name; the two navigation
    tools included. *)
Theorem tool_names_unique :
  NoDup (map name all_tools)
  /\ forall d, descriptorsOf d <> [].
Proof.
  split; [ | now destruct d].
  cbv [all_tools all_domains flat_map descriptorsOf app map name navigateTool
       backTool customerTools invoiceTools expenseTools paymentTools
       reportTools].
  repeat (constructor;
          [ intros H; cbn [In] in H;
            repeat (destruct H as [H | H]; [discriminate H | ]); exact H | ]).
  constructor.
Qed.

Lemma getDomainTools_some (v : value) (ts : list Tool) :
  getDomainTools v = Some ts ->
  exists d, v = VStr (domain_name d) /\ ts = descriptorsOf d.
Proof.
  unfold getDomainTools, is_str.
  destruct v as [ | | b | z | x | l | f]; try discriminate.
  destruct (String.eqb_spec x "customers") as [-> | _];
    [intros [= <-]; now exists customers | ].
  destruct (String.eqb_spec x "invoices") as [-> | _];
    [intros [= <-]; now exists invoices | ].
  destruct (String.eqb_spec x "expenses") as [-> | _];
    [intros [= <-]; now exists expenses | ].
  destruct (String.eqb_spec x "payments") as [-> | _];
    [intros [= <-]; now exists payments | ].
  destruct (String.eqb_spec x "reports") as [-> | _];
    [intros [= <-]; now exists reports | discriminate].
Qed.

(** X8: the listing answers a list in six states only: when the state is
    [null], where the list is the navigate tool alone, and when it is one of
    the five domain names, where the list is the back tool followed by that
    domain's descriptors; in every other state it throws. *)
Theorem listTools_succeeds_iff (state : ServerState) (ts : list Tool) :
  listTools state = Return ts
  <-> (currentDomain state = VNull /\ ts = [navigateTool])
      \/ exists d, currentDomain state = VStr (domain_name d)
                   /\ ts = backTool :: descriptorsOf d.
Proof.
  split.
  - unfold listTools.
    destruct (currentDomain state) as [ | | b | z | x | l | f] eqn:Hc;
      try (intros [= <-]; now left);
      try (destruct (getDomainTools _) eqn:Hg;
           [apply getDomainTools_some in Hg as [d [Hd _]]; discriminate
           | discriminate]).
    destruct (getDomainTools (VStr x)) as [dts | ] eqn:Hg; [ | discriminate].
    apply getDomainTools_some in Hg as [d [Hd ->]].
    intros [= <-]. right. now exists d.
  - intros [[Hc ->] | [d [Hc ->]]]; destruct state as [cd]; simpl in Hc; subst.
    + reflexivity.
    + apply listTools_in_domain.
Qed.

Section NavigationInvariant.

Variable U : Type.
Variable fetch : U -> HttpRequest -> FetchResult * U.
Variables hCustomer hExpense hPayment hReport :
  string -> list (string * value) -> eff (Env U) ToolResult.

Let call := callTool fetch hCustomer hExpense hPayment hReport.
Let run := run_schedule fetch hCustomer hExpense hPayment hReport.

(** A call of a tool other than the navigation tools runs on the
    environment alone. *)
Lemma domain_call_on_env (name_ : string)
    (args : option (list (string * value))) :
  navigation_call (ToolCall name_ args) = false ->
  exists c : eff (Env U) ToolResult,
    forall s, dispatch fetch hCustomer hExpense hPayment hReport name_ args s
              = in_env c s.
Proof.
  unfold navigation_call. intros Hn. apply orb_false_elim in Hn as [Hn Hb].
  unfold dispatch. rewrite Hn, Hb.
  repeat match goal with
  | |- context [if ?b then _ else _] => destruct b; [eexists; reflexivity | ]
  end.
  exists (ret (error_result ("Unknown tool: " ++ name_
                             ++ ". Use qbo_navigate to select a domain first."))).
  intros [st w]. reflexivity.
Qed.

Lemma domain_call_state (name_ : string)
    (args : option (list (string * value))) (st st' : ServerState) (w : Env U) :
  navigation_call (ToolCall name_ args) = false ->
  fst (snd (call name_ args (st, w))) = st
  /\ fst (call name_ args (st, w)) = fst (call name_ args (st', w))
  /\ snd (snd (call name_ args (st, w))) = snd (snd (call name_ args (st', w))).
Proof.
  intros Hn. destruct (domain_call_on_env name_ args Hn) as [c Hc].
  unfold call, callTool. rewrite !Hc. unfold in_env. simpl.
  destruct (c w) as [[r | e] w']; repeat split.
Qed.

(** An event that is no navigation call is a function of the environment
    and leaves the navigation state where it is. *)
Lemma event_on_env (mode : bool) (ev : event) :
  navigation_call ev = false ->
  exists f : Env U -> output * Env U,
    forall st w,
      run_event fetch hCustomer hExpense hPayment hReport mode ev (st, w)
      = (fst (f w), (st, snd (f w))).
Proof.
  intros Hn. destruct ev as [req | name_ args].
  - exists (fun w => let (r, w') := httpHandler mode req w in (Replied r, w')).
    intros st w. cbn [run_event fst snd].
    now destruct (httpHandler mode req w).
  - destruct (domain_call_on_env name_ args Hn) as [c Hc].
    exists (fun w => match c w with
                     | (Return r, w') => (Resulted r, w')
                     | (Throw e, w') =>
                         (Resulted (error_result ("Error: " ++ message_of e)), w')
                     end).
    intros st w. cbn [run_event]. unfold callTool. rewrite Hc.
    unfold in_env. cbn [fst snd].
    now destruct (c w) as [[r | e] w'].
Qed.

(** X9: tool calls other than [qbo_navigate] and [qbo_back] neither read nor
    write the navigation state: after any schedule of HTTP requests and such
    calls, in either auth mode, the state is what it was, and the answers
    and the final environment are the same whatever the state was. *)
Theorem navigation_state_invariant (mode : bool) (evs : list event)
    (st st' : ServerState) (w : Env U) :
  forallb (fun ev => negb (navigation_call ev)) evs = true ->
  fst (snd (run mode evs (st, w))) = st
  /\ fst (run mode evs (st, w)) = fst (run mode evs (st', w))
  /\ snd (snd (run mode evs (st, w))) = snd (snd (run mode evs (st', w))).
Proof.
  revert w. induction evs as [ | ev evs IH]; intros w Hall.
  - repeat split.
  - simpl in Hall. apply andb_true_iff in Hall as [Hev Hall].
    apply negb_true_iff in Hev.
    destruct (event_on_env mode ev Hev) as [f Hf].
    unfold run in *. cbn [run_schedule]. rewrite !Hf.
    specialize (IH (snd (f w)) Hall).
    destruct (run_schedule _ _ _ _ _ mode evs (st, snd (f w))) as [os s2].
    destruct (run_schedule _ _ _ _ _ mode evs (st', snd (f w))) as [os' s2'].
    cbn [fst snd] in *. destruct IH as [H1 [H2 H3]].
    repeat split; [exact H1 | now rewrite H2 | exact H3].
Qed.

End NavigationInvariant.

(** ** The five handlers behind the router *)

Section ServerProps.

Variable U : Type.
Variable fetch : U -> HttpRequest -> FetchResult * U.

Lemma getClient_hit (w : Env U) (c : QboClientConfig) :
  _client w = Some c -> getClient w = (Return c, w).
Proof. intros Hc. unfold getClient. now rewrite Hc. Qed.

Lemma getClient_miss (w : Env U) :
  _client w = None ->
  (missing (QBO_ACCESS_TOKEN w) || missing (QBO_REALM_ID w)) = true ->
  getClient w = (Throw credentials_required, w).
Proof. intros Hc Hm. unfold getClient. now rewrite Hc, Hm. Qed.

(** A name with a domain's prefix reaches that domain's handler. *)
Lemma server_routes (d : Domain) (n : string)
    (args : option (list (string * value))) (s : Store U) :
  String.prefix (domain_prefix d) n = true ->
  serverDispatch fetch n args s
  = in_env (handlerOf fetch d n (match args with Some a => a | None => [] end)) s.
Proof.
  intros Hp. unfold serverDispatch, dispatch.
  destruct (String.eqb_spec n "qbo_navigate") as [-> | _];
    [destruct d; discriminate | ].
  destruct (String.eqb_spec n "qbo_back") as [-> | _];
    [destruct d; discriminate | ].
  assert (Hall : forall d', String.prefix (domain_prefix d') n
                            = if String.eqb (domain_name d) (domain_name d')
                              then true else false).
  { intros d'. destruct (String.eqb_spec (domain_name d) (domain_name d')) as [E | E].
    - replace d' with d by (destruct d, d'; (reflexivity || discriminate E)).
      exact Hp.
    - apply (domain_prefixes_apart d d' n); [congruence | exact Hp]. }
  pose proof (Hall customers) as Hc. pose proof (Hall invoices) as Hi.
  pose proof (Hall expenses) as He. pose proof (Hall payments) as Hy.
  pose proof (Hall reports) as Hr. clear Hall Hp.
  destruct d; cbv [domain_prefix domain_name append String.eqb Ascii.eqb
                   Bool.eqb] in Hc, Hi, He, Hy, Hr;
    rewrite ?Hc, ?Hi, ?He, ?Hy, ?Hr; reflexivity.
Qed.

(** X10: a call of any name with a domain prefix, made when no client is
    cached and a credential variable is unset or empty, answers a failed
    result with the message that names both variables; nothing is sent
    upstream and the store is unchanged.  This holds for names the domain
    does not know as well: the client is taken before the name is looked
    at. *)
Theorem domain_call_without_credentials (d : Domain) (n : string)
    (args : option (list (string * value))) (st : ServerState) (w : Env U) :
  String.prefix (domain_prefix d) n = true ->
  _client w = None ->
  (missing (QBO_ACCESS_TOKEN w) || missing (QBO_REALM_ID w)) = true ->
  serverCallTool fetch n args (st, w)
  = ({| text := Plain ("Error: QBO_ACCESS_TOKEN and QBO_REALM_ID environment variables are required. Provide a pre-authenticated OAuth2 access token and company realm ID.");
        isError := true |}, (st, w)).
Proof.
  intros Hp Hc Hm. unfold serverCallTool, callTool.
  change (dispatch fetch _ _ _ _ n args (st, w))
    with (serverDispatch fetch n args (st, w)).
  rewrite (server_routes d n args (st, w) Hp). unfold in_env. cbn [fst snd].
  destruct d; unfold handlerOf, handleCustomerTool, handleInvoiceTool,
    handleExpenseTool, handlePaymentTool, handleReportTool;
    rewrite bind_run, (getClient_miss w Hc Hm); reflexivity.
Qed.

(** X11: a name that carries a domain's prefix but is none of that domain's
    tools answers, when a client is cached, the failed result "Unknown ...
    tool" of that domain's handler; nothing is sent upstream and the store
    is unchanged. *)
Theorem unknown_tool_in_domain (d : Domain) (n : string)
    (args : option (list (string * value))) (st : ServerState) (w : Env U)
    (c : QboClientConfig) :
  String.prefix (domain_prefix d) n = true ->
  ~ In n (map name (descriptorsOf d)) ->
  _client w = Some c ->
  serverCallTool fetch n args (st, w)
  = ({| text := Plain ("Unknown " ++ domain_label d ++ " tool: " ++ n);
        isError := true |}, (st, w)).
Proof.
  intros Hp Hn Hc. unfold serverCallTool, callTool.
  change (dispatch fetch _ _ _ _ n args (st, w))
    with (serverDispatch fetch n args (st, w)).
  rewrite (server_routes d n args (st, w) Hp). unfold in_env. cbn [fst snd].
  destruct d; unfold handlerOf, handleCustomerTool, handleInvoiceTool,
    handleExpenseTool, handlePaymentTool, handleReportTool;
    rewrite bind_run, (getClient_hit w c Hc);
    simpl in Hn;
    repeat match goal with
    | |- context [String.eqb n ?x] =>
        destruct (String.eqb_spec n x) as [E | _];
        [exfalso; apply Hn; rewrite E; tauto | ]
    end;
    reflexivity.
Qed.

End ServerProps.

Section ToolCalls.

(** *** Where a conversion can throw *)

Lemma prefixed_none (before : string) (v : value) :
  prefixed before v = None -> to_string v = None.
Proof. unfold prefixed. now destruct (to_string v). Qed.

Lemma around_none (before : string) (v : value) (after : string) :
  around before v after = None -> to_string v = None.
Proof. unfold around. now destruct (to_string v). Qed.

Lemma default_none (d : string) (v : value) :
  to_string (or_default (VNum d) v) = None -> to_string v = None.
Proof. destruct v; simpl; (discriminate || trivial). Qed.

Lemma date_condition_none (opening : string) (v : value) :
  date_condition opening v = None -> to_string v = None.
Proof.
  unfold date_condition. destruct (truthy v); [ | discriminate].
  now destruct (to_string v).
Qed.

Lemma with_paging_none (select : string) (conditions : option (list string))
    (startPosition maxResults : value) :
  with_paging select conditions startPosition maxResults = None ->
  conditions = None \/ to_string startPosition = None
  \/ to_string maxResults = None.
Proof.
  unfold with_paging. destruct conditions; [ | now left].
  destruct (to_string startPosition); [ | now right; left].
  destruct (to_string maxResults); [discriminate | now right; right].
Qed.

Lemma convert_params_none (record : list (string * value)) :
  convert_params record = None ->
  exists k v, In (k, v) record /\ to_string v = None.
Proof.
  induction record as [ | [k v] record IH]; simpl; [discriminate | ].
  destruct (to_string v) eqn:Hv; [ | intros _; exists k, v; split; [now left | exact Hv]].
  destruct (convert_params record); [discriminate | ].
  intros _. destruct (IH eq_refl) as [k' [v' [Hin Hn]]].
  exists k', v'. split; [now right | exact Hn].
Qed.

Lemma optional_fields_lookup (args : list (string * value))
    (keys : list string) (k : string) (v : value) :
  In (k, v) (optional_fields args keys) -> v = lookup args k.
Proof.
  unfold optional_fields. rewrite in_flat_map. intros [k' [_ Hin]].
  destruct (truthy (lookup args k')); [ | destruct Hin].
  now destruct Hin as [[= <- <-] | []].
Qed.

Lemma report_params_lookup (args : list (string * value))
    (always optional : list string) (k : string) (v : value) :
  In (k, v) (report_params args always optional) -> v = lookup args k.
Proof.
  unfold report_params. intros Hin. apply in_app_or in Hin as [Hin | Hin].
  - apply in_map_iff in Hin as [k' [[= <- <-] _]]. reflexivity.
  - now apply optional_fields_lookup in Hin.
Qed.

Lemma sql_none_customer_list (args : list (string * value)) :
  customer_list_sql args = None ->
  exists k, to_string (lookup args k) = None.
Proof.
  unfold customer_list_sql. intros H.
  apply with_paging_none in H as [H | [H | H]]; [discriminate | | ];
    apply default_none in H; eauto.
Qed.

Lemma sql_none_customer_search (args : list (string * value)) :
  customer_search_sql args = None ->
  exists k, to_string (lookup args k) = None.
Proof.
  unfold customer_search_sql.
  destruct (around _ (lookup args "term") _) eqn:Ht;
    [ | apply around_none in Ht; eauto].
  intros H. apply with_paging_none in H as [H | [H | H]]; [discriminate | | ];
    apply default_none in H; eauto.
Qed.

Lemma sql_none_dated (table : string) (args : list (string * value)) :
  dated_list_sql table args = None ->
  exists k, to_string (lookup args k) = None.
Proof.
  unfold dated_list_sql. intros H.
  apply with_paging_none in H as [H | [H | H]];
    [ | apply default_none in H; eauto | apply default_none in H; eauto].
  unfold txn_date_conditions in H.
  destruct (date_condition _ (lookup args "startDate")) eqn:Hs;
    [ | apply date_condition_none in Hs; eauto].
  destruct (date_condition _ (lookup args "endDate")) eqn:He;
    [discriminate | apply date_condition_none in He; eauto].
Qed.

Lemma sql_none_invoice (today_ : string) (args : list (string * value)) :
  invoice_list_sql today_ args = None ->
  exists k, to_string (lookup args k) = None.
Proof.
  unfold invoice_list_sql. intros H.
  apply with_paging_none in H as [H | [H | H]];
    [ | apply default_none in H; eauto | apply default_none in H; eauto].
  unfold invoice_conditions in H.
  destruct (date_condition _ (lookup args "startDate")) eqn:Hs;
    [ | apply date_condition_none in Hs; eauto].
  destruct (date_condition _ (lookup args "endDate")) eqn:He;
    [discriminate | apply date_condition_none in He; eauto].
Qed.

Lemma params_none_report (args : list (string * value))
    (always optional : list string) :
  convert_params (report_params args always optional) = None ->
  exists k, to_string (lookup args k) = None.
Proof.
  intros H. apply convert_params_none in H as [k [v [Hin Hn]]].
  apply report_params_lookup in Hin. subst v. eauto.
Qed.

Lemma params_none_send (args : list (string * value)) :
  convert_params (if truthy (lookup args "email")
                  then [("sendTo", lookup args "email")] else []) = None ->
  exists k, to_string (lookup args k) = None.
Proof.
  intros H. apply convert_params_none in H as [k [v [Hin Hn]]].
  destruct (truthy (lookup args "email")); [ | destruct Hin].
  destruct Hin as [[= <- <-] | []]. eauto.
Qed.

Lemma path_none (before : string) (args : list (string * value)) (k : string) :
  prefixed before (lookup args k) = None ->
  exists k', to_string (lookup args k') = None.
Proof. intros H. apply prefixed_none in H. eauto. Qed.

Lemma path_none_around (before after : string) (args : list (string * value))
    (k : string) :
  around before (lookup args k) after = None ->
  exists k', to_string (lookup args k') = None.
Proof. intros H. apply around_none in H. eauto. Qed.

(** *** One request per tool *)

Variable U : Type.
Variable fetch : U -> HttpRequest -> FetchResult * U.

(** A handler body that is one request followed by [ok_result], seen
    through the router's [catch]. *)
Lemma one_request_call (h : eff (Env U) ToolResult) (c : QboClientConfig)
    (method path : string) (params : option (list (string * string)))
    (body : value) (st : ServerState) (w w1 : Env U) :
  h w = bind (request fetch c method path params body)
             (fun v => ret (ok_result v)) w1 ->
  match in_env h (st, w) with
  | (Return result, s') => (result, s')
  | (Throw error, s') => (error_result ("Error: " ++ message_of error), s')
  end
  = (match fst (request fetch c method path params body w1) with
     | Return v => ok_result v
     | Throw e => error_result ("Error: " ++ message_of e)
     end,
     (st, snd (request fetch c method path params body w1))).
Proof.
  intros Hh. unfold in_env. cbn [fst snd]. rewrite Hh, bind_run.
  now destruct (request fetch c method path params body w1) as [[v | e] w'].
Qed.

Lemma throwing_call (h : eff (Env U) ToolResult) (e : exn)
    (st : ServerState) (w w1 : Env U) :
  h w = (Throw e, w1) ->
  match in_env h (st, w) with
  | (Return result, s') => (result, s')
  | (Throw error, s') => (error_result ("Error: " ++ message_of error), s')
  end
  = (error_result ("Error: " ++ message_of e), (st, w1)).
Proof. intros Hh. unfold in_env. cbn [fst snd]. now rewrite Hh. Qed.

Lemma request_sent (c : QboClientConfig) (method path : string)
    (params : option (list (string * string))) (body : value) (w : Env U) :
  sent (snd (request fetch c method path params body w))
  = (sent w ++ [build_request c method path params body])%list.
Proof. rewrite request_unfold. reflexivity. Qed.

Lemma server_call (d : Domain) (n : string)
    (args : option (list (string * value))) (st : ServerState) (w : Env U) :
  String.prefix (domain_prefix d) n = true ->
  serverCallTool fetch n args (st, w)
  = match in_env (handlerOf fetch d n
                    (match args with Some a => a | None => [] end)) (st, w) with
    | (Return result, s') => (result, s')
    | (Throw error, s') => (error_result ("Error: " ++ message_of error), s')
    end.
Proof.
  intros Hp. unfold serverCallTool, callTool.
  change (dispatch fetch _ _ _ _ n args (st, w))
    with (serverDispatch fetch n args (st, w)).
  now rewrite (server_routes U fetch d n args (st, w) Hp).
Qed.

(** The body of every listed tool, once the client is there: the
    conversions of its arguments, then one request. *)
Lemma listed_tool_body (d : Domain) (t : Tool) (toolArgs : list (string * value))
    (w w1 : Env U) (c : QboClientConfig) :
  In t (descriptorsOf d) ->
  getClient w = (Return c, w1) ->
  (exists method path params body,
      handlerOf fetch d (name t) toolArgs w
      = bind (request fetch c method path params body)
             (fun v => ret (ok_result v)) w1)
  \/ (handlerOf fetch d (name t) toolArgs w = (Throw conversion_error, w1)
      /\ exists k, to_string (lookup toolArgs k) = None).
Proof.
  intros Hin Hg.
  destruct d; simpl in Hin;
    repeat (destruct Hin as [<- | Hin];
      [ unfold handlerOf, handleCustomerTool, handleInvoiceTool,
          handleExpenseTool, handlePaymentTool, handleReportTool;
        rewrite bind_run, Hg;
        cbn [name String.eqb Ascii.eqb Bool.eqb];
        unfold query, get, post, read_today;
        repeat (rewrite bind_run; cbv beta iota;
                try match goal with
                | |- context [@converted ?S ?A ?o ?s] =>
                    let E := fresh "E" in
                    destruct o eqn:E;
                    [ rewrite converted_some
                    | rewrite converted_none; right;
                      split;
                      [ reflexivity
                      | solve [ eauto using sql_none_customer_list,
                                  sql_none_customer_search, sql_none_dated,
                                  sql_none_invoice, params_none_report,
                                  params_none_send, path_none,
                                  path_none_around ] ] ]
                end);
        try (left; do 4 eexists; reflexivity) | ]);
    destruct Hin.
Qed.

(** X12: every tool a domain lists is implemented: called through the
    router when credentials are there (a cached client, or both variables
    set), it either performs exactly one upstream request, built from that
    client's token and realm, and answers the stringified body when the
    request succeeds and "Error: " followed by the message when it throws;
    or, and only when the string conversion of one of its arguments throws,
    it answers that TypeError as a failed result and sends nothing.  The
    navigation state is not touched. *)
Theorem advertised_tool_one_request (d : Domain) (t : Tool)
    (args : option (list (string * value))) (st : ServerState) (w : Env U)
    (c : QboClientConfig) :
  In t (descriptorsOf d) ->
  fst (getClient w) = Return c ->
  let toolArgs := match args with Some a => a | None => [] end in
  let w1 := snd (getClient w) in
  (exists method path params body,
     serverCallTool fetch (name t) args (st, w)
     = (match fst (request fetch c method path params body w1) with
        | Return v => {| text := Stringified v; isError := false |}
        | Throw e => {| text := Plain ("Error: " ++ message_of e);
                        isError := true |}
        end,
        (st, snd (request fetch c method path params body w1)))
     /\ sent (snd (snd (serverCallTool fetch (name t) args (st, w))))
        = (sent w ++ [build_request c method path params body])%list)
  \/ (serverCallTool fetch (name t) args (st, w)
      = ({| text := Plain "Error: Cannot convert object to primitive value";
            isError := true |}, (st, w1))
      /\ sent (snd (snd (serverCallTool fetch (name t) args (st, w)))) = sent w
      /\ exists k, to_string (lookup toolArgs k) = None).
Proof.
  intros Hin Hc toolArgs w1.
  destruct (getClient_returns U w c Hc) as [Hg [_ [_ [Hsent _]]]].
  fold w1 in Hg, Hsent.
  assert (Hp : String.prefix (domain_prefix d) (name t) = true)
    by now apply descriptor_has_prefix.
  rewrite (server_call d (name t) args st w Hp). fold toolArgs.
  destruct (listed_tool_body d t toolArgs w w1 c Hin Hg)
    as [[method [path [params [body Hone]]]] | [Hthrow Hk]].
  - left. exists method, path, params, body.
    rewrite (one_request_call _ c method path params body st w w1 Hone).
    split; [reflexivity | ].
    cbn [snd]. now rewrite request_sent, Hsent.
  - right. rewrite (throwing_call _ conversion_error st w w1 Hthrow).
    split; [reflexivity | split; [exact Hsent | exact Hk]].
Qed.

End ToolCalls.

Section GetTools.

Variable U : Type.
Variable fetch : U -> HttpRequest -> FetchResult * U.

Lemma get_tool_body (tool key entity : string)
    (toolArgs : list (string * value)) (w w1 : Env U) (c : QboClientConfig) :
  In (tool, key, entity) get_tools ->
  getClient w = (Return c, w1) ->
  exists d,
    String.prefix (domain_prefix d) tool = true
    /\ handlerOf fetch d tool toolArgs w
       = bind (converted (prefixed (entity ++ "/") (lookup toolArgs key)))
              (fun path => bind (request fetch c "GET" path None VUndefined)
                                (fun v => ret (ok_result v))) w1.
Proof.
  intros Hin Hg. unfold get_tools in Hin. simpl in Hin.
  repeat (destruct Hin as [[= <- <- <-] | Hin];
    [ first [ exists customers; split; [reflexivity | ]
            | exists invoices; split; [reflexivity | ]
            | exists expenses; split; [reflexivity | ]
            | exists payments; split; [reflexivity | ] ];
      unfold handlerOf, handleCustomerTool, handleInvoiceTool,
        handleExpenseTool, handlePaymentTool;
      rewrite bind_run, Hg; reflexivity | ]).
  destruct Hin.
Qed.

(** X13: the five tools that fetch one entity, called when credentials are
    there, put the id argument into the path as JavaScript prints it and do
    not check that it is there: the request is a GET of [<entity>/<id>], and
    when the argument is missing (or no arguments are given at all) a GET of
    [<entity>/undefined] still goes upstream.  Only an id whose string
    conversion throws stops the call: the answer is then that TypeError as a
    failed result, and nothing is sent. *)
Theorem get_tool_path (tool key entity : string)
    (args : option (list (string * value))) (st : ServerState) (w : Env U)
    (c : QboClientConfig) :
  In (tool, key, entity) get_tools ->
  fst (getClient w) = Return c ->
  let toolArgs := match args with Some a => a | None => [] end in
  (forall id, to_string (lookup toolArgs key) = Some id ->
     sent (snd (snd (serverCallTool fetch tool args (st, w))))
     = (sent w ++ [build_request c "GET" (entity ++ "/" ++ id)
                     None VUndefined])%list)
  /\ (lookup toolArgs key = VUndefined ->
      sent (snd (snd (serverCallTool fetch tool args (st, w))))
      = (sent w ++ [build_request c "GET" (entity ++ "/undefined")
                      None VUndefined])%list)
  /\ (to_string (lookup toolArgs key) = None ->
      serverCallTool fetch tool args (st, w)
      = ({| text := Plain "Error: Cannot convert object to primitive value";
            isError := true |}, (st, snd (getClient w)))
      /\ sent (snd (snd (serverCallTool fetch tool args (st, w)))) = sent w).
Proof.
  intros Hin Hc toolArgs.
  destruct (getClient_returns U w c Hc) as [Hg [_ [_ [Hsent _]]]].
  remember (snd (getClient w)) as w1 eqn:Hw1. clear Hw1.
  destruct (get_tool_body tool key entity toolArgs w w1 c Hin Hg)
    as [d [Hp Hbody]].
  rewrite (server_call U fetch d tool args st w Hp). fold toolArgs.
  assert (Hsome : forall id, to_string (lookup toolArgs key) = Some id ->
    sent (snd (snd
      match in_env (handlerOf fetch d tool toolArgs) (st, w) with
      | (Return result, s') => (result, s')
      | (Throw error, s') =>
          (error_result ("Error: " ++ message_of error), s')
      end))
    = (sent w ++ [build_request c "GET" (entity ++ "/" ++ id)
                    None VUndefined])%list).
  { intros id Hid. unfold prefixed in Hbody. rewrite Hid in Hbody.
    cbn [option_map] in Hbody. rewrite bind_run, converted_some in Hbody.
    rewrite append_assoc in Hbody.
    rewrite (one_request_call U fetch _ c "GET" _ None VUndefined st w w1 Hbody).
    cbn [snd]. now rewrite request_sent, Hsent. }
  split; [exact Hsome | split].
  - intros Hu. rewrite (Hsome "undefined") by now rewrite Hu.
    reflexivity.
  - intros Hn. unfold prefixed in Hbody. rewrite Hn in Hbody.
    cbn [option_map] in Hbody. rewrite bind_run, converted_none in Hbody.
    rewrite (throwing_call U _ conversion_error st w w1 Hbody).
    split; [reflexivity | exact Hsent].
Qed.

End GetTools.

(** ** Filters and bodies *)

(** X14: a [status] that is not exactly "Paid", "Unpaid" or "Overdue" (a
    different spelling, a number, no status at all) adds no condition: the
    invoice listing is then the plain dated listing of [Invoice]. *)
Theorem unrecognized_status_ignored (today_ : string)
    (args : list (string * value)) :
  is_str (lookup args "status") "Paid" = false ->
  is_str (lookup args "status") "Unpaid" = false ->
  is_str (lookup args "status") "Overdue" = false ->
  invoice_list_sql today_ args = dated_list_sql "Invoice" args.
Proof.
  intros Hp Hu Ho. unfold invoice_list_sql, invoice_conditions, dated_list_sql,
    txn_date_conditions. rewrite Hp, Hu, Ho. reflexivity.
Qed.


(** ** More on the paginated fetch *)

Section PaginationEdges.

Variable U : Type.
Variable fetch : U -> HttpRequest -> FetchResult * U.

Lemma query_fails (config : QboClientConfig) (sql : string) (w : Env U)
    (r : FetchResult) (u1 : U) (e : exn) :
  fetch (upstream w) (query_request config sql) = (r, u1) ->
  failure_of "POST" "query" r = Some e ->
  query fetch config sql w
  = (Throw e, after_requests w [query_request config sql] u1).
Proof.
  intros Hf He. unfold query. rewrite request_unfold. cbv zeta.
  fold (query_request config sql). rewrite Hf. cbn [fst snd].
  unfold after_requests. f_equal.
  destruct r as [e0 | resp]; simpl in He.
  - now injection He as ->.
  - destruct (negb (rs_ok resp)); [now injection He as -> | discriminate].
Qed.

Lemma loop_never_ends (config : QboClientConfig) (baseSql : string) (m : Z) :
  (forall u rq, exists v,
      delivers (fst (fetch u rq)) = Some v
      /\ structured v = true /\ more_after m v = true) ->
  forall (fuel : nat) (p : Z) (acc : list value) (w : Env U),
    fst (getPaginated_loop fetch fuel config baseSql m p acc w) = None
    /\ length (sent (snd (getPaginated_loop fetch fuel config baseSql m p acc w)))
       = (length (sent w) + fuel)%nat.
Proof.
  intros Hup. induction fuel as [ | fuel IH]; intros p acc w.
  - simpl. split; [reflexivity | lia].
  - destruct (Hup (upstream w)
                (query_request config (paginatedSql baseSql p m)))
      as [v [Hd [Hs Hm]]].
    destruct (fetch (upstream w)
                (query_request config (paginatedSql baseSql p m)))
      as [r u1] eqn:Hf.
    rewrite (loop_round U fetch fuel config baseSql m p acc w _ v
               (query_delivers U fetch _ _ _ _ _ _ Hf Hd) Hs).
    rewrite Hm.
    destruct (IH (p + m) (acc ++ batch v)%list
                (after_requests w
                   [query_request config (paginatedSql baseSql p m)] u1))
      as [H1 H2].
    split; [exact H1 | ].
    rewrite H2. simpl. rewrite length_app. simpl. lia.
Qed.

(** X16: the fetch has no bound of its own on the number of rounds: against
    an upstream that answers every query with a batch at least as long as
    the page size, it is still running after any number of rounds, one
    request sent per round. *)
Theorem paginated_fetch_never_ends (config : QboClientConfig)
    (baseSql : string) (m : Z) (fuel : nat) (w : Env U) :
  (forall u rq, exists v,
      delivers (fst (fetch u rq)) = Some v
      /\ structured v = true /\ more_after m v = true) ->
  fst (getPaginated fetch fuel config baseSql (Some m) w) = None
  /\ length (sent (snd (getPaginated fetch fuel config baseSql (Some m) w)))
     = (length (sent w) + fuel)%nat.
Proof.
  intros Hup. unfold getPaginated. now apply loop_never_ends.
Qed.

Lemma start_positions_zero (p : Z) (n : nat) :
  start_positions p 0 n = repeat p n.
Proof.
  induction n as [ | n IH]; [reflexivity | ].
  simpl. now rewrite Z.add_0_r, IH.
Qed.

(** X17: with page size 0 the start position never moves: every request of
    the fetch is the same query, [STARTPOSITION 1 MAXRESULTS 0], and against
    an upstream that answers each one with a batch that is not empty the
    fetch repeats it round after round without returning. *)
Theorem page_size_zero_repeats (config : QboClientConfig) (baseSql : string)
    (fuel : nat) (w : Env U) :
  (exists n,
     sent (snd (getPaginated fetch fuel config baseSql (Some 0) w))
     = (sent w
        ++ repeat (query_request config
                     (baseSql ++ " STARTPOSITION 1 MAXRESULTS 0")) n)%list)
  /\ ((forall u rq, exists v,
          delivers (fst (fetch u rq)) = Some v
          /\ structured v = true /\ batch v <> []) ->
      fst (getPaginated fetch fuel config baseSql (Some 0) w) = None
      /\ sent (snd (getPaginated fetch fuel config baseSql (Some 0) w))
         = (sent w
            ++ repeat (query_request config
                         (baseSql ++ " STARTPOSITION 1 MAXRESULTS 0")) fuel)%list).
Proof.
  assert (Hsent : exists n,
     sent (snd (getPaginated fetch fuel config baseSql (Some 0) w))
     = (sent w
        ++ repeat (query_request config
                     (baseSql ++ " STARTPOSITION 1 MAXRESULTS 0")) n)%list).
  { unfold getPaginated.
    destruct (loop_sends U fetch config baseSql 0 fuel 1 [] w) as [n Hn].
    exists n. rewrite Hn. unfold page_requests.
    rewrite start_positions_zero, map_repeat. reflexivity. }
  split; [exact Hsent | ].
  intros Hup.
  assert (Hup' : forall u rq, exists v,
             delivers (fst (fetch u rq)) = Some v
             /\ structured v = true /\ more_after 0 v = true).
  { intros u rq. destruct (Hup u rq) as [v [Hd [Hs Hb]]].
    exists v. repeat split; try assumption.
    unfold more_after. destruct (batch v) as [ | x xs]; [contradiction | ].
    simpl. destruct (Z.ltb_spec (Z.pos (Pos.of_succ_nat (length xs))) 0);
      [lia | reflexivity]. }
  destruct (loop_never_ends config baseSql 0 Hup' fuel 1 [] w)
    as [Hnone Hlen].
  fold (getPaginated fetch fuel config baseSql (Some 0) w) in Hnone, Hlen.
  split; [exact Hnone | ].
  destruct Hsent as [n Hn]. rewrite Hn in Hlen |- *.
  rewrite length_app, repeat_length in Hlen.
  replace n with fuel by lia. reflexivity.
Qed.

Lemma loop_fails (config : QboClientConfig) (baseSql : string) (m : Z)
    (full : list value) :
  forall (r : FetchResult) (e : exn) (rs : list FetchResult) (p : Z)
         (acc : list value) (w : Env U) (u' : U) (fuel : nat),
    answers fetch (upstream w)
      (page_requests config baseSql m p (S (length full))) (rs ++ [r]) u' ->
    map delivers rs = map Some full ->
    forallb structured full = true ->
    forallb (more_after m) full = true ->
    failure_of "POST" "query" r = Some e ->
    (length full < fuel)%nat ->
    getPaginated_loop fetch fuel config baseSql m p acc w
    = (Some (Throw e),
       after_requests w (page_requests config baseSql m p (S (length full))) u').
Proof.
  induction full as [ | v full IH];
    intros r e rs p acc w u' fuel Hans Hdel Hstr Hmore Hfail Hfuel.
  - destruct rs as [ | r0 rs]; [ | destruct rs; discriminate].
    destruct fuel as [ | fuel]; [lia | ].
    inversion Hans as [ | u0 u1 u2 rq r1 rqs rs' Hf Hrest]; subst.
    inversion Hrest; subst.
    cbn [getPaginated_loop]. fold (paginatedSql baseSql p m).
    now rewrite (query_fails _ _ _ _ _ _ Hf Hfail).
  - destruct rs as [ | r0 rs]; [discriminate | ].
    destruct fuel as [ | fuel]; [simpl in Hfuel; lia | ].
    inversion Hans as [ | u0 u1 u2 rq r1 rqs rs' Hf Hrest]; subst.
    simpl in Hdel. injection Hdel as Hd Hdel.
    simpl in Hstr. apply andb_true_iff in Hstr as [Hsv Hstr].
    simpl in Hmore. apply andb_true_iff in Hmore as [Hmv Hmore].
    rewrite (loop_round U fetch fuel config baseSql m p acc w _ v
               (query_delivers U fetch _ _ _ _ _ _ Hf Hd) Hsv).
    rewrite Hmv.
    rewrite (IH r e rs (p + m) (acc ++ batch v)%list _ u' fuel);
      try assumption; [ | simpl in Hfuel; lia].
    now rewrite after_requests_app.
Qed.

(** X18: a round that fails (the connection is refused, or the status is
    outside 200-299) ends the fetch with that round's error: the batches of
    the rounds before it are not returned, and no further request is
    sent. *)
Theorem paginated_fetch_failure (config : QboClientConfig) (baseSql : string)
    (m : Z) (full : list value) (r : FetchResult) (e : exn)
    (rs : list FetchResult) (w : Env U) (u' : U) (fuel : nat) :
  answers fetch (upstream w)
    (page_requests config baseSql m 1 (S (length full))) (rs ++ [r]) u' ->
  map delivers rs = map Some full ->
  forallb structured full = true ->
  forallb (more_after m) full = true ->
  failure_of "POST" "query" r = Some e ->
  (length full < fuel)%nat ->
  getPaginated fetch fuel config baseSql (Some m) w
  = (Some (Throw e),
     after_requests w (page_requests config baseSql m 1 (S (length full))) u').
Proof.
  intros. unfold getPaginated.
  now apply (loop_fails config baseSql m full r e rs 1 [] w u' fuel).
Qed.

End PaginationEdges.

(** ** The paging clause of the list tools *)

Section ListTools.

Variable U : Type.
Variable fetch : U -> HttpRequest -> FetchResult * U.

Lemma date_conditions_empty (sd ed : value) (a b : string) :
  to_string sd = Some a -> to_string ed = Some b ->
  exists l, txn_date_conditions sd ed = Some l
            /\ (sd = VUndefined -> ed = VUndefined -> l = []).
Proof.
  intros Ha Hb. unfold txn_date_conditions, date_condition. rewrite Ha, Hb.
  destruct (truthy sd) eqn:Hs, (truthy ed) eqn:He; cbn [option_map];
    (eexists; split; [reflexivity | ]); intros -> ->;
    simpl in Hs, He; (discriminate || reflexivity).
Qed.

Lemma invoice_conditions_empty (today_ : string) (status sd ed : value)
    (a b : string) :
  to_string sd = Some a -> to_string ed = Some b ->
  exists l, invoice_conditions today_ status sd ed = Some l
            /\ (status = VUndefined -> sd = VUndefined -> ed = VUndefined ->
                l = []).
Proof.
  intros Ha Hb. unfold invoice_conditions, date_condition. rewrite Ha, Hb.
  destruct (truthy sd) eqn:Hs, (truthy ed) eqn:He; cbn [option_map];
    (eexists; split; [reflexivity | ]); intros -> -> ->;
    simpl in Hs, He; (discriminate || reflexivity).
Qed.

(** The body of a list tool, once the client is there: the query text is
    put together, with the conditions of that tool, and sent. *)
Lemma list_tool_body (tool table : string) (toolArgs : list (string * value))
    (w w1 : Env U) (c : QboClientConfig) (a b : string) :
  In (tool, table) list_tools ->
  getClient w = (Return c, w1) ->
  to_string (lookup toolArgs "startDate") = Some a ->
  to_string (lookup toolArgs "endDate") = Some b ->
  exists d l,
    String.prefix (domain_prefix d) tool = true
    /\ handlerOf fetch d tool toolArgs w
       = bind (converted
                 (with_paging table (Some l)
                    (or_default (VNum "1") (lookup toolArgs "startPosition"))
                    (or_default (VNum "100") (lookup toolArgs "maxResults"))))
              (fun sql => bind (query fetch c sql)
                               (fun v => ret (ok_result v))) w1
    /\ (lookup toolArgs "status" = VUndefined ->
        lookup toolArgs "startDate" = VUndefined ->
        lookup toolArgs "endDate" = VUndefined -> l = []).
Proof.
  intros Hin Hg Ha Hb. unfold list_tools in Hin. simpl in Hin.
  destruct (date_conditions_empty _ _ a b Ha Hb) as [l [Hl Hempty]].
  destruct Hin as [[= <- <-] | Hin].
  { exists customers, []. split; [reflexivity | split; [ | reflexivity]].
    unfold handlerOf, handleCustomerTool. rewrite bind_run, Hg. reflexivity. }
  destruct Hin as [[= <- <-] | Hin].
  { destruct (invoice_conditions_empty (today w1) (lookup toolArgs "status")
                _ _ a b Ha Hb) as [li [Hli Hiempty]].
    exists invoices, li. split; [reflexivity | split; [ | exact Hiempty]].
    unfold handlerOf, handleInvoiceTool. rewrite bind_run, Hg.
    cbn [String.eqb Ascii.eqb Bool.eqb]. rewrite bind_run.
    unfold read_today, invoice_list_sql. rewrite Hli. reflexivity. }
  destruct Hin as [[= <- <-] | Hin].
  { exists expenses, l. split; [reflexivity | split; [ | intros _; exact Hempty]].
    unfold handlerOf, handleExpenseTool. rewrite bind_run, Hg.
    cbn [String.eqb Ascii.eqb Bool.eqb]. unfold dated_list_sql.
    rewrite Hl. reflexivity. }
  destruct Hin as [[= <- <-] | Hin].
  { exists expenses, l. split; [reflexivity | split; [ | intros _; exact Hempty]].
    unfold handlerOf, handleExpenseTool. rewrite bind_run, Hg.
    cbn [String.eqb Ascii.eqb Bool.eqb]. unfold dated_list_sql.
    rewrite Hl. reflexivity. }
  destruct Hin as [[= <- <-] | Hin]; [ | destruct Hin].
  exists payments, l. split; [reflexivity | split; [ | intros _; exact Hempty]].
  unfold handlerOf, handlePaymentTool. rewrite bind_run, Hg.
  cbn [String.eqb Ascii.eqb Bool.eqb]. unfold dated_list_sql.
  rewrite Hl. reflexivity.
Qed.

(** X19: each of the five list tools, called when credentials are there and
    with dates and paging values whose string conversion does not throw,
    sends one query: [SELECT * FROM] its entity, then the filter, then
    [STARTPOSITION] and [MAXRESULTS] followed by the caller's values as
    JavaScript prints them, 1 and 100 standing in for a missing one; nothing
    caps the page size.  Without [status], [startDate] and [endDate] the
    filter is empty. *)
Theorem list_tool_paging (tool table : string)
    (args : option (list (string * value))) (st : ServerState) (w : Env U)
    (c : QboClientConfig) (startText endText positionText sizeText : string) :
  In (tool, table) list_tools ->
  fst (getClient w) = Return c ->
  let toolArgs := match args with Some a => a | None => [] end in
  to_string (lookup toolArgs "startDate") = Some startText ->
  to_string (lookup toolArgs "endDate") = Some endText ->
  to_string (or_default (VNum "1") (lookup toolArgs "startPosition"))
  = Some positionText ->
  to_string (or_default (VNum "100") (lookup toolArgs "maxResults"))
  = Some sizeText ->
  exists filter,
    sent (snd (snd (serverCallTool fetch tool args (st, w))))
    = (sent w
       ++ [query_request c
             (table ++ filter
              ++ " STARTPOSITION " ++ positionText
              ++ " MAXRESULTS " ++ sizeText)])%list
    /\ (lookup toolArgs "status" = VUndefined ->
        lookup toolArgs "startDate" = VUndefined ->
        lookup toolArgs "endDate" = VUndefined ->
        filter = "").
Proof.
  intros Hin Hc toolArgs Hsd Hed Hsp Hmr.
  destruct (getClient_returns U w c Hc) as [Hg [_ [_ [Hsent _]]]].
  remember (snd (getClient w)) as w1 eqn:Hw1. clear Hw1.
  destruct (list_tool_body tool table toolArgs w w1 c startText endText
              Hin Hg Hsd Hed) as [d [l [Hp [Hbody Hempty]]]].
  exists (match l with
          | [] => ""
          | _ => " WHERE " ++ String.concat " AND " l
          end).
  split; [ | intros H1 H2 H3; now rewrite (Hempty H1 H2 H3)].
  rewrite (server_call U fetch d tool args st w Hp). fold toolArgs.
  unfold with_paging in Hbody. rewrite Hsp, Hmr in Hbody.
  rewrite bind_run, converted_some in Hbody. unfold query in Hbody.
  rewrite (one_request_call U fetch _ c "POST" "query" None _ st w w1 Hbody).
  cbn [snd]. now rewrite request_sent, Hsent.
Qed.

End ListTools.

(** ** Runs of the further properties *)

(** A client built from one pair of variables is still the one returned
    after the variables were overwritten. *)
Lemma client_survives_new_variables :
  getClient (with_credentials (Some "tok-acme") (Some "1001") (fresh_env []))
  = (Return acme, signed_in [])
  /\ getClient (with_credentials (Some "tok-other") (Some "2002") (signed_in []))
     = (Return acme,
        with_credentials (Some "tok-other") (Some "2002") (signed_in [])).
Proof.
  assert (H : getClient (with_credentials (Some "tok-acme") (Some "1001")
                           (fresh_env []))
              = (Return acme, signed_in [])) by reflexivity.
  split; [exact H | ].
  exact (proj2 (getClient_cached scripted _ _ acme (Some "tok-other")
                  (Some "2002") H)).
Defined.

(** After the second tenant's request the client is the second tenant's,
    although the first tenant's client was cached. *)
Lemma client_follows_last_request :
  fst (getClient (snd (httpHandler true request_of_b (signed_in []))))
  = Return {| accessToken := "token-b"; realmId := "realm-b" |}.
Proof.
  apply (gateway_request_sets_client scripted request_of_b "token-b" "realm-b"
           (signed_in []));
    (reflexivity || discriminate).
Defined.

(** With nothing configured [getClient] throws and changes nothing. *)
Lemma no_variables_no_client :
  getClient (fresh_env []) = (Throw credentials_required, fresh_env [])
  /\ (credentials_required = credentials_required
      /\ fresh_env [] = fresh_env []).
Proof.
  assert (H : getClient (fresh_env [])
              = (Throw credentials_required, fresh_env [])) by reflexivity.
  split; [exact H | ].
  exact (proj2 (getClient_throws_iff scripted (fresh_env []))
           credentials_required (fresh_env []) H).
Defined.

(** The query string of [qbo_invoices_send] with an address. *)
Lemma send_to_after_version :
  rq_search (build_request acme "POST" "invoice/7/send"
               (Some [("sendTo", "billing@example.com")]) VUndefined)
  = [("minorversion", "73"); ("sendTo", "billing@example.com")].
Proof.
  apply (proj1 (search_params_order acme "POST" "invoice/7/send"
                  [("sendTo", "billing@example.com")] VUndefined)).
  - repeat constructor. intros [].
  - intros [H | []]. discriminate H.
  - intros k [<- | []]. reflexivity.
Defined.

(** A customer tool name does not carry the invoice prefix. *)
Lemma customer_name_not_invoice :
  String.prefix (domain_prefix invoices) "qbo_customers_get" = false.
Proof.
  apply (proj1 (domain_prefixes_disjoint customers invoices "qbo_customers_get"));
    [discriminate | reflexivity].
Defined.

(** A request and an invoice call made while the customers domain is
    selected leave it selected. *)
Lemma domain_stays_selected :
  fst (snd (run_schedule scripted_fetch
              (handleCustomerTool scripted_fetch)
              (handleExpenseTool scripted_fetch)
              (handlePaymentTool scripted_fetch)
              (handleReportTool scripted_fetch)
              true
              [ Incoming request_of_a;
                ToolCall "qbo_invoices_get" (Some [("invoiceId", VStr "7")]) ]
              ({| currentDomain := VStr "customers" |},
               fresh_env [page "Invoice" []])))
  = {| currentDomain := VStr "customers" |}.
Proof.
  apply (proj1 (navigation_state_invariant scripted scripted_fetch
                  (handleCustomerTool scripted_fetch)
                  (handleExpenseTool scripted_fetch)
                  (handlePaymentTool scripted_fetch)
                  (handleReportTool scripted_fetch)
                  true
                  [ Incoming request_of_a;
                    ToolCall "qbo_invoices_get"
                             (Some [("invoiceId", VStr "7")]) ]
                  {| currentDomain := VStr "customers" |} initial_state
                  (fresh_env [page "Invoice" []]) eq_refl)).
Defined.

(** A report call with nothing configured. *)
Lemma report_without_credentials :
  serverCallTool scripted_fetch "qbo_reports_cash_flow" None
    (initial_state, fresh_env [])
  = ({| text := Plain ("Error: QBO_ACCESS_TOKEN and QBO_REALM_ID environment variables are required. Provide a pre-authenticated OAuth2 access token and company realm ID.");
        isError := true |}, (initial_state, fresh_env [])).
Proof.
  apply (domain_call_without_credentials scripted scripted_fetch reports
           "qbo_reports_cash_flow" None initial_state (fresh_env []));
    reflexivity.
Defined.

(** A payment tool that does not exist. *)
Lemma refund_is_unknown :
  serverCallTool scripted_fetch "qbo_payments_refund" None
    (initial_state, signed_in [])
  = ({| text := Plain "Unknown payment tool: qbo_payments_refund";
        isError := true |}, (initial_state, signed_in [])).
Proof.
  apply (unknown_tool_in_domain scripted scripted_fetch payments
           "qbo_payments_refund" None initial_state (signed_in []) acme);
    [reflexivity | | reflexivity].
  simpl. intros H.
  repeat (destruct H as [H | H]; [discriminate H | ]). exact H.
Defined.

(** The customer listing at the start of a gateway call: the variables are
    set, no client is cached. *)
Lemma customers_list_is_one_request :
  (exists method path params body,
     serverCallTool scripted_fetch "qbo_customers_list" None
       (initial_state,
        with_credentials (Some "tok-acme") (Some "1001")
          (fresh_env [page "Customer" []]))
     = (match fst (request scripted_fetch acme method path params body
                     (signed_in [page "Customer" []])) with
        | Return v => {| text := Stringified v; isError := false |}
        | Throw e => {| text := Plain ("Error: " ++ message_of e);
                        isError := true |}
        end,
        (initial_state,
         snd (request scripted_fetch acme method path params body
                (signed_in [page "Customer" []]))))
     /\ sent (snd (snd (serverCallTool scripted_fetch "qbo_customers_list" None
                          (initial_state,
                           with_credentials (Some "tok-acme") (Some "1001")
                             (fresh_env [page "Customer" []])))))
        = [build_request acme method path params body])
  \/ (serverCallTool scripted_fetch "qbo_customers_list" None
        (initial_state,
         with_credentials (Some "tok-acme") (Some "1001")
           (fresh_env [page "Customer" []]))
      = ({| text := Plain "Error: Cannot convert object to primitive value";
            isError := true |},
         (initial_state, signed_in [page "Customer" []]))
      /\ sent (snd (snd (serverCallTool scripted_fetch "qbo_customers_list" None
                           (initial_state,
                            with_credentials (Some "tok-acme") (Some "1001")
                              (fresh_env [page "Customer" []])))))
         = []
      /\ exists k, to_string (lookup [] k) = None).
Proof.
  exact (advertised_tool_one_request scripted scripted_fetch customers
           {| name := "qbo_customers_list";
              properties := ["startPosition"; "maxResults"];
              required := [] |}
           None initial_state
           (with_credentials (Some "tok-acme") (Some "1001")
              (fresh_env [page "Customer" []]))
           acme (or_introl eq_refl) eq_refl).
Defined.

(** [qbo_expenses_get_bill] without arguments asks for [bill/undefined]; an
    id object with a [toString] key of its own stops the call. *)
Lemma bill_without_id :
  sent (snd (snd (serverCallTool scripted_fetch "qbo_expenses_get_bill" None
                    (initial_state, signed_in [server_error]))))
  = [build_request acme "GET" "bill/undefined" None VUndefined]
  /\ serverCallTool scripted_fetch "qbo_expenses_get_bill"
       (Some [("billId", VObj [("toString", VNum "1")])])
       (initial_state, signed_in [server_error])
     = ({| text := Plain "Error: Cannot convert object to primitive value";
           isError := true |},
        (initial_state, signed_in [server_error])).
Proof.
  split.
  - apply (proj1 (proj2 (get_tool_path scripted scripted_fetch
                    "qbo_expenses_get_bill" "billId" "bill" None initial_state
                    (signed_in [server_error]) acme
                    ltac:(simpl; tauto) eq_refl))).
    reflexivity.
  - apply (proj2 (proj2 (get_tool_path scripted scripted_fetch
                    "qbo_expenses_get_bill" "billId" "bill"
                    (Some [("billId", VObj [("toString", VNum "1")])])
                    initial_state (signed_in [server_error]) acme
                    ltac:(simpl; tauto) eq_refl))).
    reflexivity.
Defined.

(** A lower-case status is no filter. *)
Lemma lower_case_status :
  invoice_list_sql "2024-05-01" [("status", VStr "overdue")]
  = Some "SELECT * FROM Invoice STARTPOSITION 1 MAXRESULTS 100".
Proof.
  rewrite (unrecognized_status_ignored "2024-05-01"
             [("status", VStr "overdue")]); reflexivity.
Defined.

(** An upstream that always has a full page keeps the fetch going. *)
Lemma full_pages_forever :
  fst (getPaginated (constant_fetch (page "Customer" (numbered 1 2))) 25 acme
         "SELECT * FROM Customer" (Some 2) constant_env) = None
  /\ length (sent (snd (getPaginated
                          (constant_fetch (page "Customer" (numbered 1 2)))
                          25 acme "SELECT * FROM Customer" (Some 2)
                          constant_env))) = 25%nat.
Proof.
  apply (paginated_fetch_never_ends unit
           (constant_fetch (page "Customer" (numbered 1 2))) acme
           "SELECT * FROM Customer" 2 25 constant_env).
  intros u rq. exists (page_body "Customer" (numbered 1 2)).
  repeat split.
Defined.

(** Page size 0 against an upstream that always has one item. *)
Lemma page_size_zero_stuck :
  fst (getPaginated (constant_fetch (page "Customer" (numbered 1 1))) 4 acme
         "SELECT * FROM Customer" (Some 0) constant_env) = None
  /\ sent (snd (getPaginated (constant_fetch (page "Customer" (numbered 1 1)))
                  4 acme "SELECT * FROM Customer" (Some 0) constant_env))
     = repeat (query_request acme
                 "SELECT * FROM Customer STARTPOSITION 1 MAXRESULTS 0") 4.
Proof.
  apply (proj2 (page_size_zero_repeats unit
                  (constant_fetch (page "Customer" (numbered 1 1))) acme
                  "SELECT * FROM Customer" 4 constant_env)).
  intros u rq. exists (page_body "Customer" (numbered 1 1)).
  repeat split. discriminate.
Defined.

(** A failure on the second page loses the first page. *)
Lemma second_page_fails :
  getPaginated scripted_fetch 5 acme "SELECT * FROM Customer" (Some 2)
    (fresh_env [page "Customer" (numbered 1 2); server_error])
  = (Some (Throw (Error "QBO API error POST /query (500): boom")),
     after_requests
       (fresh_env [page "Customer" (numbered 1 2); server_error])
       [ query_request acme
           "SELECT * FROM Customer STARTPOSITION 1 MAXRESULTS 2";
         query_request acme
           "SELECT * FROM Customer STARTPOSITION 3 MAXRESULTS 2" ]
       []).
Proof.
  apply (paginated_fetch_failure scripted scripted_fetch acme
           "SELECT * FROM Customer" 2
           [page_body "Customer" (numbered 1 2)] server_error
           (Error "QBO API error POST /query (500): boom")
           [page "Customer" (numbered 1 2)]
           (fresh_env [page "Customer" (numbered 1 2); server_error]) [] 5).
  - repeat (eapply answers_cons; [reflexivity | ]). apply answers_nil.
  - reflexivity.
  - reflexivity.
  - reflexivity.
  - reflexivity.
  - simpl. lia.
Defined.

(** A payment listing with a page size of 5000, and one with the page size
    JavaScript prints as [1e+21]. *)
Lemma payments_page_of_5000 :
  (exists filter,
     sent (snd (snd (serverCallTool scripted_fetch "qbo_payments_list"
                       (Some [("maxResults", VNum "5000")])
                       (initial_state, signed_in [page "Payment" []]))))
     = [query_request acme
          ("SELECT * FROM Payment" ++ filter
           ++ " STARTPOSITION 1 MAXRESULTS 5000")]
     /\ (VUndefined = VUndefined -> VUndefined = VUndefined ->
         VUndefined = VUndefined -> filter = ""))
  /\ (exists filter,
        sent (snd (snd (serverCallTool scripted_fetch "qbo_payments_list"
                          (Some [("maxResults", VNum "1e+21")])
                          (initial_state, signed_in [page "Payment" []]))))
        = [query_request acme
             ("SELECT * FROM Payment" ++ filter
              ++ " STARTPOSITION 1 MAXRESULTS 1e+21")]
        /\ (VUndefined = VUndefined -> VUndefined = VUndefined ->
            VUndefined = VUndefined -> filter = "")).
Proof.
  split.
  - exact (list_tool_paging scripted scripted_fetch "qbo_payments_list"
             "SELECT * FROM Payment" (Some [("maxResults", VNum "5000")])
             initial_state (signed_in [page "Payment" []]) acme
             "undefined" "undefined" "1" "5000"
             ltac:(simpl; tauto) eq_refl eq_refl eq_refl eq_refl eq_refl).
  - exact (list_tool_paging scripted scripted_fetch "qbo_payments_list"
             "SELECT * FROM Payment" (Some [("maxResults", VNum "1e+21")])
             initial_state (signed_in [page "Payment" []]) acme
             "undefined" "undefined" "1" "1e+21"
             ltac:(simpl; tauto) eq_refl eq_refl eq_refl eq_refl eq_refl).
Defined.
